(** * torch.xpu: lazy initialisation, device and stream guards

    A shallow embedding of [torch/xpu/__init__.py].  The Python module keeps
    one global flag and one memoised value, and otherwise sequences calls into
    the native extension [torch._C].  The module state and the state of the
    native runtime are threaded explicitly through a state-and-exception
    monad; every call into [torch._C] is recorded in a log so that statements
    such as "the native initialisation runs at most once" can be expressed. *)

From Stdlib Require Import ZArith List String Ascii Bool Lia.
Import ListNotations.
Local Open Scope Z_scope.

(** ** Data model *)

(** The exceptions the module raises (or lets through). *)
Inductive Exception : Type :=
| RuntimeError (msg : string)
| AssertionError (msg : string)
| NotImplementedError (msg : string)
| ValueError (msg : string)
| AttributeError (msg : string)
| TypeError (msg : string).

Inductive Outcome (A : Type) : Type :=
| Ok (a : A)
| Raise (e : Exception).
Arguments Ok {A} a.
Arguments Raise {A} e.

Inductive DeviceType : Type := CPU | CUDA | XPU.

Definition DeviceType_eqb (x y : DeviceType) : bool :=
  match x, y with
  | CPU, CPU | CUDA, CUDA | XPU, XPU => true
  | _, _ => false
  end.

(** [torch.device]: a device type and an optional index. *)
Record TorchDevice : Type := mkTorchDevice {
  dev_type : DeviceType;
  dev_index : option Z
}.

Definition option_Z_eqb (x y : option Z) : bool :=
  match x, y with
  | Some a, Some c => a =? c
  | None, None => true
  | _, _ => false
  end.

Definition TorchDevice_eqb (x y : TorchDevice) : bool :=
  DeviceType_eqb (dev_type x) (dev_type y)
  && option_Z_eqb (dev_index x) (dev_index y).

(** [_device_t = Union[_device, str, int, None]]. *)
Inductive DeviceRef : Type :=
| Absent
| Index (i : Z)
| Named (s : string)
| Handle (d : TorchDevice).

(** A stream is referenced by (stream id, device index, device type). *)
Record Stream : Type := mkStream {
  stream_id : Z;
  device_index : Z;
  device_type : DeviceType
}.

(** The [Stream.device] property. *)
Definition stream_device (s : Stream) : TorchDevice :=
  mkTorchDevice (device_type s) (Some (device_index s)).

(** The fields of [_XpuDeviceProperties] that the module reads. *)
Record XpuDeviceProperties : Type := mkProps {
  name : string;
  max_work_group_size : Z;
  max_num_sub_groups : Z;
  sub_group_sizes : list Z
}.

(** Values stored in the capability dictionary. *)
Inductive CapValue : Type :=
| CapInt (n : Z)
| CapList (l : list Z).

(** Calls into [torch._C], in the order they are made. *)
Inductive NativeCall : Type :=
| C_getDeviceCount
| C_init
| C_setDevice (d : Z)
| C_getDevice
| C_exchangeDevice (d : Z)
| C_maybeExchangeDevice (d : Z)
| C_setStream (id : Z) (d : Z) (ty : DeviceType)
| C_getCurrentStream (d : Z)
| C_synchronize (d : Z)
| C_getDeviceProperties (d : Z).

Definition is_C_init (c : NativeCall) : bool :=
  match c with C_init => true | _ => false end.

(** What is fixed for the lifetime of a process: how the extension was built
    and what the machine holds. *)
Record Backend : Type := mkBackend {
  (** [torch._C._has_xpu] *)
  has_xpu : bool;
  (** the number of devices the runtime enumerates *)
  xpu_device_count : Z;
  (** the properties of each device *)
  xpu_properties : Z -> XpuDeviceProperties;
  (** whether selecting a stream also makes its device the active one *)
  set_stream_selects_device : bool;
  (** [torch.device(str)], which is not part of the sources: the device a
      string names, nothing where the constructor raises *)
  device_of_string : string -> option TorchDevice
}.

(** The mutable state of one process: the two module globals, and the part of
    the runtime state the module observes. *)
Record World : Type := mkWorld {
  (** the module global [_initialized] *)
  _initialized : bool;
  (** the single slot of [lru_cache(maxsize=1)] on [device_count] *)
  device_count_cache : option Z;
  (** the answer of [_is_in_bad_fork()]; it is [false] when the extension
      has no [_xpu_isInBadFork] *)
  in_bad_fork : bool;
  (** the device selected in the runtime *)
  active_device : Z;
  (** the stream selected on each device *)
  active_stream : Z -> Stream;
  (** the calls made into [torch._C] so far, oldest first *)
  native_log : list NativeCall
}.

Definition set_initialized (v : bool) (w : World) : World :=
  mkWorld v (device_count_cache w) (in_bad_fork w) (active_device w)
          (active_stream w) (native_log w).

Definition set_device_count_cache (v : option Z) (w : World) : World :=
  mkWorld (_initialized w) v (in_bad_fork w) (active_device w)
          (active_stream w) (native_log w).

Definition set_in_bad_fork (v : bool) (w : World) : World :=
  mkWorld (_initialized w) (device_count_cache w) v (active_device w)
          (active_stream w) (native_log w).

Definition set_active_device (v : Z) (w : World) : World :=
  mkWorld (_initialized w) (device_count_cache w) (in_bad_fork w) v
          (active_stream w) (native_log w).

Definition set_active_stream (d : Z) (s : Stream) (w : World) : World :=
  mkWorld (_initialized w) (device_count_cache w) (in_bad_fork w)
          (active_device w)
          (fun d' => if d' =? d then s else active_stream w d')
          (native_log w).

Definition log_call (c : NativeCall) (w : World) : World :=
  mkWorld (_initialized w) (device_count_cache w) (in_bad_fork w)
          (active_device w) (active_stream w) (native_log w ++ [c]).

(** The number of times [torch._C._xpu_init] has run. *)
Definition init_calls (w : World) : nat :=
  List.length (filter is_C_init (native_log w)).
Arguments init_calls : simpl never.

(** ** The state-and-exception monad

    An exception leaves the state as it was when it was raised. *)
Definition M (A : Type) : Type := World -> Outcome A * World.

Definition ret {A} (a : A) : M A := fun w => (Ok a, w).

Definition raise {A} (e : Exception) : M A := fun w => (Raise e, w).

Definition bind {A B} (c : M A) (k : A -> M B) : M B :=
  fun w =>
    match c w with
    | (Ok a, w') => k a w'
    | (Raise e, w') => (Raise e, w')
    end.

Definition gets {A} (f : World -> A) : M A := fun w => (Ok (f w), w).

Definition modify (f : World -> World) : M unit := fun w => (Ok tt, f w).

Declare Scope py_scope.
Delimit Scope py_scope with py.
Notation "x <- c ;; k" := (bind c (fun x => k))
  (at level 61, c at next level, right associativity) : py_scope.
Notation "c ;; k" := (bind c (fun _ => k))
  (at level 61, right associativity) : py_scope.
Local Open Scope py_scope.

(** The [with] statement: [__exit__] runs whenever [__enter__] has returned,
    whether the block returns or raises; an exception of the block is
    swallowed only when [__exit__] returns a true value. *)
Definition with_ {G A} (ctx : M G) (enter : G -> M G)
    (exit : G -> M (G * bool)) (block : M A) : M (option A) :=
  fun w =>
    match ctx w with
    | (Raise e, w0) => (Raise e, w0)
    | (Ok g0, w0) =>
      match enter g0 w0 with
      | (Raise e, w1) => (Raise e, w1)
      | (Ok g, w1) =>
        let (r, w2) := block w1 in
        match exit g w2 with
        | (Raise e, w3) => (Raise e, w3)
        | (Ok (_, suppress), w3) =>
          match r with
          | Ok a => (Ok (Some a), w3)
          | Raise e => if suppress then (Ok None, w3) else (Raise e, w3)
          end
        end
      end
    end.

(** The outcome of a [with] statement whose [__exit__] returns a false
    value: the value of the block, or its exception. *)
Definition propagate {A} (r : Outcome A) : Outcome (option A) :=
  match r with
  | Ok a => Ok (Some a)
  | Raise e => Raise e
  end.

(** ** The native extension [torch._C] *)

Definition valid_index (b : Backend) (d : Z) : bool :=
  (0 <=? d) && (d <? xpu_device_count b).

Definition out_of_range : Exception :=
  RuntimeError "device index out of range".

(** Modelled from the spec: [torch._C._xpu_isInBadFork] is not part of the
    sources.  It is the backend-provided probe that tells whether the process
    has forked since a previous initialisation; it has no effect. *)
Definition _is_in_bad_fork : M bool := gets in_bad_fork.

(** Modelled from the spec: [torch._C._xpu_init] is not part of the sources.
    It initialises the backend; the spec lets it neither fail nor touch the
    device or stream selection. *)
Definition _xpu_init : M unit := modify (log_call C_init).

(** Modelled from the spec: [torch._C._xpu_getDeviceCount] is not part of the
    sources.  It is the native query for the number of available devices. *)
Definition _xpu_getDeviceCount (b : Backend) : M Z :=
  modify (log_call C_getDeviceCount) ;; ret (xpu_device_count b).

(** Modelled from the spec: [torch._C._xpu_getDevice] is not part of the
    sources.  It is the native query for the active device. *)
Definition _xpu_getDevice : M Z :=
  modify (log_call C_getDevice) ;; gets active_device.

(** Modelled from the spec: [torch._C._xpu_setDevice] is not part of the
    sources.  It makes a device in [0, device_count) the active one; an index
    that names no device is refused and changes nothing. *)
Definition _xpu_setDevice (b : Backend) (d : Z) : M unit :=
  modify (log_call (C_setDevice d)) ;;
  if valid_index b d then modify (set_active_device d)
  else raise out_of_range.

(** The exchange of the active device, shared by the two primitives below. *)
Definition exchange (b : Backend) (to : Z) : M Z :=
  if to <? 0 then ret (-1)
  else if valid_index b to then
    prev <- gets active_device ;;
    modify (set_active_device to) ;;
    ret prev
  else raise out_of_range.

(** Modelled from the spec: [torch._C._xpu_exchangeDevice] is not part of the
    sources.  It exchanges the active device for the requested index and
    returns the previous one, atomically; a negative index is a no-op that
    keeps the active device. *)
Definition _xpu_exchangeDevice (b : Backend) (to : Z) : M Z :=
  modify (log_call (C_exchangeDevice to)) ;; exchange b to.

(** Modelled from the spec: [torch._C._xpu_maybeExchangeDevice] is not part
    of the sources.  The spec does not tell it apart from
    [_xpu_exchangeDevice]: it restores the device it is given. *)
Definition _xpu_maybeExchangeDevice (b : Backend) (to : Z) : M Z :=
  modify (log_call (C_maybeExchangeDevice to)) ;; exchange b to.

(** Modelled from the spec: [torch._C._xpu_getCurrentStream] is not part of
    the sources.  It returns the (stream id, device index, device type) of the
    stream selected on a device, the active device when the index is the
    negative sentinel. *)
Definition _xpu_getCurrentStream (b : Backend) (d : Z)
  : M (Z * Z * DeviceType) :=
  modify (log_call (C_getCurrentStream d)) ;;
  cur <- gets active_device ;;
  let d' := if d <? 0 then cur else d in
  if valid_index b d' then
    s <- gets (fun w => active_stream w d') ;;
    ret (stream_id s, device_index s, device_type s)
  else raise out_of_range.

(** Modelled from the spec: [torch._C._xpu_setStream] is not part of the
    sources.  Streams are per device: it selects the stream on the device the
    stream is bound to.  The spec leaves open whether that device also becomes
    the active one; [set_stream_selects_device] covers both. *)
Definition _xpu_setStream (b : Backend) (id d : Z) (ty : DeviceType)
  : M unit :=
  modify (log_call (C_setStream id d ty)) ;;
  if valid_index b d then
    modify (set_active_stream d (mkStream id d ty)) ;;
    if set_stream_selects_device b then modify (set_active_device d)
    else ret tt
  else raise out_of_range.

(** Modelled from the spec: [torch._C._xpu_synchronize] is not part of the
    sources.  It blocks until the work queued on a device has drained. *)
Definition _xpu_synchronize (b : Backend) (d : Z) : M unit :=
  modify (log_call (C_synchronize d)) ;;
  cur <- gets active_device ;;
  if valid_index b (if d <? 0 then cur else d) then ret tt
  else raise out_of_range.

(** Modelled from the spec: the native property lookup
    [_get_device_properties] is not part of the sources.  It returns the
    immutable properties snapshot of a device. *)
Definition _get_device_properties (b : Backend) (d : Z)
  : M XpuDeviceProperties :=
  modify (log_call (C_getDeviceProperties d)) ;;
  if valid_index b d then ret (xpu_properties b d)
  else raise out_of_range.

(** ** Device strings *)

Fixpoint digits_value (s : string) (acc : Z) : option Z :=
  match s with
  | EmptyString => Some acc
  | String c r =>
    let n := Z.of_nat (nat_of_ascii c) in
    if (48 <=? n) && (n <=? 57)
    then digits_value r (10 * acc + (n - 48))
    else None
  end.

(** An index is [0] or a string of digits that does not start with [0]. *)
Definition parse_index (s : string) : option Z :=
  match s with
  | EmptyString => None
  | String c r =>
    if Ascii.eqb c "0" && negb (String.eqb r "") then None
    else digits_value s 0
  end.

(** The index is kept in eight bits, and [-1] there means no index. *)
Definition wrap_index (v : Z) : option Z :=
  let u := v mod 256 in
  let i := if u <? 128 then u else u - 256 in
  if i =? -1 then None else Some i.

Definition parse_type (s : string) : option DeviceType :=
  if String.eqb s "cpu" then Some CPU
  else if String.eqb s "cuda" then Some CUDA
  else if String.eqb s "xpu" then Some XPU
  else None.

(** Modelled from the spec: [torch.device(str)] is not part of the sources.
    A string names a device type, optionally followed by a colon and an
    index.  This is the parser of the sample backends below; the theorems
    hold for every [device_of_string]. *)
Definition torch_device (s : string) : option TorchDevice :=
  match String.index 0 ":" s with
  | None => option_map (fun t => mkTorchDevice t None) (parse_type s)
  | Some n =>
    match parse_type (substring 0 n s),
          parse_index (substring (S n) (String.length s - S n) s) with
    | Some t, Some i => Some (mkTorchDevice t (wrap_index i))
    | _, _ => None
    end
  end.

(** The number of devices a process can use: none without the backend. *)
Definition count_of (b : Backend) : Z :=
  if has_xpu b then xpu_device_count b else 0.

(** ** The module [torch.xpu] *)

Definition _is_compiled (b : Backend) : M bool := ret (has_xpu b).

Definition without_xpu : Exception :=
  NotImplementedError "PyTorch was compiled without XPU support".

(** [None] where an integer is needed, in a comparison with an integer or as
    an integer argument of the native extension. *)
Definition int_arg (v : option Z) : M Z :=
  match v with
  | Some i => ret i
  | None => raise (TypeError "an integer is required")
  end.

(** Bound to the native primitive when the backend is compiled in, to a
    dummy that raises otherwise, whatever it is given. *)
Definition _exchange_device (b : Backend) (device : option Z) : M Z :=
  if has_xpu b then i <- int_arg device ;; _xpu_exchangeDevice b i
  else raise without_xpu.

Definition _maybe_exchange_device (b : Backend) (device : option Z) : M Z :=
  if has_xpu b then i <- int_arg device ;; _xpu_maybeExchangeDevice b i
  else raise without_xpu.

(** [lru_cache(maxsize=1)] on a function without arguments: the first value
    returned is kept; an exception is not cached. *)
Definition lru_cache (f : M Z) : M Z :=
  fun w =>
    match device_count_cache w with
    | Some v => (Ok v, w)
    | None =>
      match f w with
      | (Ok v, w') => (Ok v, set_device_count_cache (Some v) w')
      | (Raise e, w') => (Raise e, w')
      end
    end.

Definition device_count (b : Backend) : M Z :=
  lru_cache (
    c <- _is_compiled b ;;
    if negb c then ret 0 else _xpu_getDeviceCount b).

Definition is_available (b : Backend) : M bool :=
  n <- device_count b ;; ret (n >? 0).

Definition is_bf16_supported : M bool := ret true.

(** [_initialized and not _is_in_bad_fork()]: the probe is not called when
    the flag is unset. *)
Definition is_initialized : M bool :=
  i <- gets _initialized ;;
  if i then f <- _is_in_bad_fork ;; ret (negb f) else ret false.

Definition bad_fork_error : Exception :=
  RuntimeError
    ("Cannot re-initialize XPU in forked subprocess. To use XPU with "
     ++ "multiprocessing, you must use the 'spawn' start method").

Definition not_compiled_error : Exception :=
  AssertionError "Torch not compiled with XPU enabled".

(** One call of [_lazy_init] run without interference: the lock is free when
    it is reached and released on every way out, so it leaves no trace
    here.  The interleaving of several callers is modelled by [thread_step]
    below. *)
Definition _lazy_init (b : Backend) : M unit :=
  i <- is_initialized ;;
  if i then ret tt else
  i' <- is_initialized ;;
  if i' then ret tt else
  f <- _is_in_bad_fork ;;
  if f then raise bad_fork_error else
  c <- _is_compiled b ;;
  if negb c then raise not_compiled_error else
  _xpu_init ;;
  modify (set_initialized true).

Definition init (b : Backend) : M unit := _lazy_init b.

Definition current_device (b : Backend) : M Z :=
  _lazy_init b ;; _xpu_getDevice.

(** ** The device index resolver, [torch/xpu/_utils.py] *)

(** Modelled from the spec: [_get_device_index] of [torch/xpu/_utils.py] is
    not part of the sources.  The resolver maps a loose device reference to an
    index: an integer is taken as it is (negative integers are the no-op
    sentinel), a structured handle or a string name gives its index, and an
    absent reference, or a handle without index, stands for the current
    device when the caller passes [optional].  The docstrings of the module
    give the current device as [current_device()], and the stream guard
    expects [None] where there is no device: the resolver asks
    [is_available()], then [current_device()], in a build where no other
    accelerator is available.  It fails with an invalid-argument condition
    when the reference cannot be mapped to a device. *)
Definition _get_device_index (b : Backend) (device : DeviceRef)
    (optional : bool) : M (option Z) :=
  let current : M (option Z) :=
    if optional then
      available <- is_available b ;;
      if available then i <- current_device b ;; ret (Some i)
      else ret None
    else raise (ValueError
      "Expected a torch.device with a specified index or an integer") in
  let of_handle (d : TorchDevice) : M (option Z) :=
    match dev_type d with
    | XPU =>
      match dev_index d with Some i => ret (Some i) | None => current end
    | _ => raise (ValueError "Expected a xpu device")
    end in
  match device with
  | Absent => current
  | Index i => ret (Some i)
  | Named s =>
    match device_of_string b s with
    | Some d => of_handle d
    | None => raise (RuntimeError "Invalid device string")
    end
  | Handle d => of_handle d
  end.

(** ** Guards and operations of [torch.xpu] *)

Module _DeviceGuard.
Record t : Type := mk { idx : Z; prev_idx : Z }.

Definition __init__ (index : Z) : M t := ret (mk index (-1)).

Definition __enter__ (b : Backend) (self : t) : M t :=
  p <- _exchange_device b (Some (idx self)) ;;
  ret (mk (idx self) p).

Definition __exit__ (b : Backend) (self : t) : M (t * bool) :=
  i <- _maybe_exchange_device b (Some (prev_idx self)) ;;
  ret (mk i (prev_idx self), false).
End _DeviceGuard.

Module device.
Record t : Type := mk { idx : option Z; prev_idx : Z }.

Definition __init__ (b : Backend) (device : DeviceRef) : M t :=
  i <- _get_device_index b device true ;;
  ret (mk i (-1)).

Definition __enter__ (b : Backend) (self : t) : M t :=
  p <- _exchange_device b (idx self) ;;
  ret (mk (idx self) p).

Definition __exit__ (b : Backend) (self : t) : M (t * bool) :=
  i <- _maybe_exchange_device b (Some (prev_idx self)) ;;
  ret (mk (Some i) (prev_idx self), false).
End device.

(** [with device(d): block] *)
Definition with_device {A} (b : Backend) (d : DeviceRef) (block : M A)
  : M (option A) :=
  with_ (device.__init__ b d) (device.__enter__ b) (device.__exit__ b) block.

(** What [device_of] looks at in a tensor or storage. *)
Record TensorLike : Type := mkTensorLike {
  is_xpu : bool;
  get_device : Z
}.

Module device_of.
Definition __init__ (b : Backend) (obj : TensorLike) : M device.t :=
  let idx := if is_xpu obj then get_device obj else -1 in
  device.__init__ b (Index idx).
End device_of.

Definition set_device (b : Backend) (device : DeviceRef) : M unit :=
  _lazy_init b ;;
  device <- _get_device_index b device false ;;
  device <- int_arg device ;;
  if device >=? 0 then _xpu_setDevice b device else ret tt.

Definition invalid_index_error : Exception :=
  AssertionError "Invalid device index".

Definition get_device_properties (b : Backend) (device : DeviceRef)
  : M XpuDeviceProperties :=
  _lazy_init b ;;
  device <- _get_device_index b device true ;;
  device <- int_arg device ;;
  if device <? 0 then raise invalid_index_error else
  n <- device_count b ;;
  if device >=? n then raise invalid_index_error else
  _get_device_properties b device.

Definition get_device_name (b : Backend) (device : DeviceRef) : M string :=
  prop <- get_device_properties b device ;;
  ret (name prop).

Definition capability_of (prop : XpuDeviceProperties)
  : list (string * CapValue) :=
  [ ("max_work_group_size"%string, CapInt (max_work_group_size prop));
    ("max_num_sub_groups"%string, CapInt (max_num_sub_groups prop));
    ("sub_group_sizes"%string, CapList (sub_group_sizes prop)) ].

Definition get_device_capability (b : Backend) (device : DeviceRef)
  : M (list (string * CapValue)) :=
  prop <- get_device_properties b device ;;
  ret (capability_of prop).

Definition _set_stream_by_id (b : Backend) (stream_id device_index : Z)
    (device_type : DeviceType) : M unit :=
  _xpu_setStream b stream_id device_index device_type.

Definition set_stream (b : Backend) (stream : option Stream) : M unit :=
  match stream with
  | None => ret tt
  | Some stream =>
    _lazy_init b ;;
    _set_stream_by_id b (stream_id stream) (device_index stream)
                      (device_type stream)
  end.

Definition current_stream (b : Backend) (device : DeviceRef) : M Stream :=
  _lazy_init b ;;
  i <- _get_device_index b device true ;;
  i <- int_arg i ;;
  streamdata <- _xpu_getCurrentStream b i ;;
  let '(id, d, ty) := streamdata in
  ret (mkStream id d ty).

Definition synchronize (b : Backend) (device : DeviceRef) : M unit :=
  _lazy_init b ;;
  device <- _get_device_index b device false ;;
  device <- int_arg device ;;
  _xpu_synchronize b device.

Module StreamContext.
Record t : Type := mk {
  stream : option Stream;
  idx : Z;
  src_prev_stream : option Stream;
  dst_prev_stream : option Stream
}.

(** Reading an attribute that has not been assigned. *)
Definition attr (field : string) (v : option Stream) : M Stream :=
  match v with
  | Some s => ret s
  | None => raise (AttributeError field)
  end.

Definition __init__ (b : Backend) (stream : option Stream) : M t :=
  i <- _get_device_index b Absent true ;;
  let idx := match i with Some i => i | None => -1 end in
  ret (mk stream idx None None).

Definition __enter__ (b : Backend) (self : t) : M t :=
  match stream self with
  | None => ret self
  | Some cur_stream =>
    if idx self =? -1 then ret self else
    src <- current_stream b Absent ;;
    let self := mk (stream self) (idx self) (Some src)
                   (dst_prev_stream self) in
    self <-
      (if negb (TorchDevice_eqb (stream_device src)
                                (stream_device cur_stream))
       then
         r <- with_device b (Handle (stream_device cur_stream))
                (current_stream b (Handle (stream_device cur_stream))) ;;
         match r with
         | Some dst => ret (mk (stream self) (idx self)
                               (src_prev_stream self) (Some dst))
         | None => ret self
         end
       else ret self) ;;
    set_stream b (Some cur_stream) ;;
    ret self
  end.

Definition __exit__ (b : Backend) (self : t) : M (t * bool) :=
  match stream self with
  | None => ret (self, false)
  | Some cur_stream =>
    if idx self =? -1 then ret (self, false) else
    src <- attr "src_prev_stream" (src_prev_stream self) ;;
    (if negb (TorchDevice_eqb (stream_device src)
                              (stream_device cur_stream))
     then
       dst <- attr "dst_prev_stream" (dst_prev_stream self) ;;
       set_stream b (Some dst)
     else ret tt) ;;
    set_stream b (Some src) ;;
    ret (self, false)
  end.
End StreamContext.

Definition stream (b : Backend) (stream : option Stream)
  : M StreamContext.t :=
  StreamContext.__init__ b stream.

(** [with stream(s): block] *)
Definition with_stream {A} (b : Backend) (s : option Stream) (block : M A)
  : M (option A) :=
  with_ (stream b s) (StreamContext.__enter__ b) (StreamContext.__exit__ b)
        block.

(** ** Forking *)

(** Whether the backend has been initialised in this process. *)
Definition native_initialized (w : World) : bool :=
  existsb is_C_init (native_log w).

(** Modelled from the spec: forking happens outside the sources.  The child
    inherits the module globals and the runtime state of its parent; it is in
    a bad fork when the backend context it inherited had been initialised in
    the parent. *)
Definition fork (w : World) : World :=
  set_in_bad_fork (in_bad_fork w || native_initialized w) w.

(** ** The public operations as a command language *)

Inductive Op : Type :=
| op_init
| op_set_device (d : DeviceRef)
| op_get_device_name (d : DeviceRef)
| op_get_device_capability (d : DeviceRef)
| op_get_device_properties (d : DeviceRef)
| op_current_device
| op_set_stream (s : option Stream)
| op_current_stream (d : DeviceRef)
| op_synchronize (d : DeviceRef)
| op_device_count
| op_is_available
| op_is_bf16_supported
| op_is_initialized.

(** Forget the value an operation returns. *)
Definition ignore {A} (c : M A) : M unit := c ;; ret tt.

Definition run_op (b : Backend) (op : Op) : M unit :=
  match op with
  | op_init => init b
  | op_set_device d => set_device b d
  | op_get_device_name d => ignore (get_device_name b d)
  | op_get_device_capability d => ignore (get_device_capability b d)
  | op_get_device_properties d => ignore (get_device_properties b d)
  | op_current_device => ignore (current_device b)
  | op_set_stream s => set_stream b s
  | op_current_stream d => ignore (current_stream b d)
  | op_synchronize d => synchronize b d
  | op_device_count => ignore (device_count b)
  | op_is_available => ignore (is_available b)
  | op_is_bf16_supported => ignore is_bf16_supported
  | op_is_initialized => ignore is_initialized
  end.

(** The operations whose first statement is [_lazy_init()]. *)
Definition triggers_lazy_init (op : Op) : bool :=
  match op with
  | op_init | op_set_device _ | op_get_device_name _
  | op_get_device_capability _ | op_get_device_properties _
  | op_current_device | op_current_stream _ | op_synchronize _ => true
  | op_set_stream (Some _) => true
  | op_set_stream None => false
  | op_device_count | op_is_available | op_is_bf16_supported
  | op_is_initialized => false
  end.

(** A client that performs operations one after the other and carries on
    after an exception. *)
Fixpoint run_ops (b : Backend) (ops : list Op) (w : World) : World :=
  match ops with
  | [] => w
  | op :: rest => run_ops b rest (snd (run_op b op w))
  end.

(** ** Sample processes *)

Definition sample_properties (d : Z) : XpuDeviceProperties :=
  mkProps (if d =? 0 then "Intel(R) Data Center GPU Max 1550"
           else "Intel(R) Arc(TM) A770 Graphics")
          1024 64 [16; 32].

Definition two_devices : Backend :=
  mkBackend true 2 sample_properties true torch_device.

Definition two_devices' : Backend :=
  mkBackend true 2 sample_properties false torch_device.

Definition no_devices : Backend :=
  mkBackend true 0 sample_properties true torch_device.

Definition no_backend : Backend :=
  mkBackend false 0 sample_properties true torch_device.

(** The state of a process that has just imported the module. *)
Definition fresh : World :=
  mkWorld false None false 0 (fun d => mkStream 0 d XPU) [].

(** A child forked from a process that had initialised the backend. *)
Definition forked_child : World := fork (snd (init two_devices fresh)).

(** ** Invariant of the module state

    The flag is set only after the check that the backend is compiled in,
    and the cache holds only what [device_count] computes. *)
Definition consistent (b : Backend) (w : World) : Prop :=
  (_initialized w = true -> has_xpu b = true) /\
  (forall n, device_count_cache w = Some n -> n = count_of b).

(** ** Concurrent callers of [_lazy_init]

    Each thread is somewhere in the body of [_lazy_init]; the threads share
    the world and [_initialization_lock].  One step of a thread is one
    statement of the function. *)
Inductive Pc : Type :=
| AtCheck                      (* if is_initialized(): return *)
| AtAcquire                    (* with _initialization_lock: *)
| AtRecheck                    (* if is_initialized(): return *)
| AtForkProbe                  (* if _is_in_bad_fork(): raise *)
| AtCompiled                   (* if not _is_compiled(): raise *)
| AtNativeInit                 (* torch._C._xpu_init() *)
| AtSetFlag                    (* _initialized = True *)
| Returned (r : Outcome unit).

(** The statements inside the [with] block are run with the lock held. *)
Definition holds_lock (pc : Pc) : bool :=
  match pc with
  | AtRecheck | AtForkProbe | AtCompiled | AtNativeInit | AtSetFlag => true
  | AtCheck | AtAcquire | Returned _ => false
  end.

Definition at_set_flag (pc : Pc) : bool :=
  match pc with AtSetFlag => true | _ => false end.

(** One statement of a thread: the next position, the lock and the world
    afterwards; [None] when the thread cannot move (it waits for the lock, or
    its call has returned).  Leaving the [with] block, by [return] or by an
    exception, releases the lock. *)
Definition thread_step (b : Backend) (pc : Pc) (locked : bool) (w : World)
  : option (Pc * bool * World) :=
  match pc with
  | AtCheck =>
    match is_initialized w with
    | (Ok true, w') => Some (Returned (Ok tt), locked, w')
    | (Ok false, w') => Some (AtAcquire, locked, w')
    | (Raise e, w') => Some (Returned (Raise e), locked, w')
    end
  | AtAcquire => if locked then None else Some (AtRecheck, true, w)
  | AtRecheck =>
    match is_initialized w with
    | (Ok true, w') => Some (Returned (Ok tt), false, w')
    | (Ok false, w') => Some (AtForkProbe, locked, w')
    | (Raise e, w') => Some (Returned (Raise e), false, w')
    end
  | AtForkProbe =>
    match _is_in_bad_fork w with
    | (Ok true, w') => Some (Returned (Raise bad_fork_error), false, w')
    | (Ok false, w') => Some (AtCompiled, locked, w')
    | (Raise e, w') => Some (Returned (Raise e), false, w')
    end
  | AtCompiled =>
    match _is_compiled b w with
    | (Ok false, w') => Some (Returned (Raise not_compiled_error), false, w')
    | (Ok true, w') => Some (AtNativeInit, locked, w')
    | (Raise e, w') => Some (Returned (Raise e), false, w')
    end
  | AtNativeInit =>
    match _xpu_init w with
    | (Ok _, w') => Some (AtSetFlag, locked, w')
    | (Raise e, w') => Some (Returned (Raise e), false, w')
    end
  | AtSetFlag => Some (Returned (Ok tt), false, set_initialized true w)
  | Returned _ => None
  end.

Record Process : Type := mkProcess {
  world : World;
  lock_held : bool;
  threads : list Pc
}.

(** A process moves when one of its threads runs a statement, when a thread
    whose call has returned calls [_lazy_init] again, or when a new thread
    calls it. *)
Inductive step (b : Backend) : Process -> Process -> Prop :=
| step_thread w lk l1 pc l2 pc' lk' w' :
    thread_step b pc lk w = Some (pc', lk', w') ->
    step b (mkProcess w lk (l1 ++ pc :: l2))
           (mkProcess w' lk' (l1 ++ pc' :: l2))
| step_call w lk l1 r l2 :
    step b (mkProcess w lk (l1 ++ Returned r :: l2))
           (mkProcess w lk (l1 ++ AtCheck :: l2))
| step_spawn w lk l :
    step b (mkProcess w lk l) (mkProcess w lk (l ++ [AtCheck])).

Inductive steps (b : Backend) : Process -> Process -> Prop :=
| steps_refl p : steps b p p
| steps_snoc p q r : steps b p q -> step b q r -> steps b p r.

(** [n] threads about to call [_lazy_init], nobody holding the lock. *)
Definition start (w : World) (n : nat) : Process :=
  mkProcess w false (repeat AtCheck n).

(** Replace the position of thread [i]. *)
Definition set_thread (i : nat) (pc : Pc) (l : list Pc) : list Pc :=
  firstn i l ++ pc :: skipn (S i) l.

(** Let thread [i] run one statement, if it can. *)
Definition schedule1 (b : Backend) (p : Process) (i : nat) : Process :=
  match nth_error (threads p) i with
  | Some pc =>
    match thread_step b pc (lock_held p) (world p) with
    | Some (pc', lk', w') => mkProcess w' lk' (set_thread i pc' (threads p))
    | None => p
    end
  | None => p
  end.

(** Run the threads in the order a schedule names them. *)
Definition schedule (b : Backend) (order : list nat) (p : Process) : Process :=
  fold_left (schedule1 b) order p.

(** A thread running alone, for at most [fuel] statements. *)
Fixpoint run_alone (b : Backend) (fuel : nat) (pc : Pc) (locked : bool)
    (w : World) : Pc * bool * World :=
  match fuel with
  | O => (pc, locked, w)
  | S fuel' =>
    match thread_step b pc locked w with
    | Some (pc', lk', w') => run_alone b fuel' pc' lk' w'
    | None => (pc, locked, w)
    end
  end.

Definition holders (l : list Pc) : nat := List.length (filter holds_lock l).

(** What the position of a thread tells about the shared state. *)
Definition pc_ok (w : World) (pc : Pc) : Prop :=
  match pc with
  | AtForkProbe => _initialized w = false \/ in_bad_fork w = true
  | AtCompiled | AtNativeInit | AtSetFlag => _initialized w = false
  | AtCheck | AtAcquire | AtRecheck | Returned _ => True
  end.

(** The invariant of the processes reachable from a world [w0]. *)
Record inv (w0 : World) (p : Process) : Prop := mkInv {
  inv_lock : holders (threads p) = if lock_held p then 1%nat else 0%nat;
  inv_fork : in_bad_fork (world p) = in_bad_fork w0;
  inv_mono : _initialized w0 = true -> _initialized (world p) = true;
  inv_pcs : Forall (pc_ok (world p)) (threads p);
  inv_count :
    init_calls (world p) =
    (init_calls w0 +
     if _initialized w0 then 0
     else if _initialized (world p) || existsb at_set_flag (threads p)
          then 1 else 0)%nat
}.

(** ** The other guards, and what the operations are measured by *)

(** [with _DeviceGuard(index): block] *)
Definition with_DeviceGuard {A} (b : Backend) (index : Z) (block : M A)
  : M (option A) :=
  with_ (_DeviceGuard.__init__ index) (_DeviceGuard.__enter__ b)
        (_DeviceGuard.__exit__ b) block.

(** [with device_of(obj): block]; [device_of] inherits [__enter__] and
    [__exit__] from [device]. *)
Definition with_device_of {A} (b : Backend) (obj : TensorLike) (block : M A)
  : M (option A) :=
  with_ (device_of.__init__ b obj) (device.__enter__ b) (device.__exit__ b)
        block.

Definition is_C_getDeviceCount (c : NativeCall) : bool :=
  match c with C_getDeviceCount => true | _ => false end.

(** The number of times [torch._C._xpu_getDeviceCount] has run. *)
Definition device_count_queries (w : World) : nat :=
  List.length (filter is_C_getDeviceCount (native_log w)).
Arguments device_count_queries : simpl never.

(** The operations other than the two setters. *)
Definition is_query (op : Op) : bool :=
  match op with
  | op_set_device _ | op_set_stream _ => false
  | _ => true
  end.

(** A computation that relates every state to the state it leaves. *)
Definition respects (R : World -> World -> Prop) {A} (c : M A) : Prop :=
  forall w, R w (snd (c w)).

(** Neither the active device nor any selected stream has changed. *)
Definition same_selection (w w' : World) : Prop :=
  active_device w' = active_device w /\ active_stream w' = active_stream w.

(** The backend is initialised and usable. *)
Definition ready (b : Backend) (w : World) : Prop :=
  _initialized w = true /\ in_bad_fork w = false /\ consistent b w.

(** A reference that the resolver maps to the index [i] in the initialised
    states that have the selection of [w]. *)
Definition resolves_to (b : Backend) (d : DeviceRef) (i : Z) (w : World)
  : Prop :=
  forall w1, ready b w1 -> same_selection w w1 ->
    exists w2, _get_device_index b d true w1 = (Ok (Some i), w2) /\
               ready b w2 /\ same_selection w1 w2.

(** A filled cache is kept with no further query; an empty one is filled by
    at most one. *)
Definition cache_once (w w' : World) : Prop :=
  match device_count_cache w with
  | Some v =>
    device_count_cache w' = Some v /\
    device_count_queries w' = device_count_queries w
  | None =>
    (device_count_queries w' <=
     device_count_queries w +
     match device_count_cache w' with Some _ => 1 | None => 0 end)%nat
  end.

Definition is_returned (pc : Pc) : bool :=
  match pc with Returned _ => true | _ => false end.

(** A call that has returned has returned normally and found the flag
    set. *)
Definition returned_ok (w : World) (pc : Pc) : Prop :=
  match pc with
  | Returned r => r = Ok tt /\ _initialized w = true
  | _ => True
  end.

(** * Properties *)

(** ** Concrete runs *)

(** The parser of the sample backends. *)
Example torch_device_with_index :
  torch_device "xpu:1" = Some (mkTorchDevice XPU (Some 1)) /\
  torch_device "xpu" = Some (mkTorchDevice XPU None) /\
  torch_device "xpu:" = None /\
  torch_device "xpu:01" = None /\
  torch_device "xpu:300" = Some (mkTorchDevice XPU (Some 44)).
Proof. repeat split; reflexivity. Qed.

(** The first query initialises the backend and fills the cache. *)
Example properties_of_device_1 :
  let r := get_device_properties two_devices (Index 1) fresh in
  fst r = Ok (sample_properties 1) /\
  _initialized (snd r) = true /\
  device_count_cache (snd r) = Some 2 /\
  native_log (snd r) = [C_init; C_getDeviceCount; C_getDeviceProperties 1].
Proof. repeat split; reflexivity. Qed.

(** An absent index is resolved through [is_available()] and
    [current_device()]. *)
Example properties_of_the_current_device :
  let r := get_device_properties two_devices Absent fresh in
  fst r = Ok (sample_properties 0) /\
  native_log (snd r)
  = [C_init; C_getDeviceCount; C_getDevice; C_getDeviceProperties 0].
Proof. repeat split; reflexivity. Qed.

(** With the backend but no device, an absent index resolves to [None],
    which cannot be compared with [0]. *)
Example properties_without_devices :
  fst (get_device_properties no_devices Absent fresh)
  = Raise (TypeError "an integer is required").
Proof. reflexivity. Qed.

(** The device guard leaves through [__exit__] when its block raises. *)
Example device_guard_block_raises :
  let r := with_device two_devices (Index 1)
             (raise (A := unit) (ValueError "boom")) fresh in
  fst r = Raise (ValueError "boom") /\
  active_device (snd r) = 0.
Proof. repeat split; reflexivity. Qed.

(** Without the backend the guard fails on entry. *)
Example device_guard_without_backend :
  fst (with_device no_backend (Index 0) (ret tt) fresh) = Raise without_xpu.
Proof. reflexivity. Qed.

(** The stream guard across two devices, for a runtime where selecting a
    stream selects its device and for one where it does not. *)
Example stream_guard_across_devices :
  let r := with_stream two_devices (Some (mkStream 7 1 XPU))
             (current_device two_devices) fresh in
  let r' := with_stream two_devices' (Some (mkStream 7 1 XPU))
              (current_device two_devices') fresh in
  fst r = Ok (Some 1) /\ fst r' = Ok (Some 0) /\
  active_device (snd r) = 0 /\ active_device (snd r') = 0 /\
  active_stream (snd r) 0 = mkStream 0 0 XPU /\
  active_stream (snd r) 1 = mkStream 0 1 XPU.
Proof. repeat split; reflexivity. Qed.

(** ** Lazy initialisation *)

Ltac unfold_monad :=
  unfold bind, ret, raise, gets, modify in *.

Section LazyInit.
Variable b : Backend.

Lemma is_initialized_eq (w : World) :
  is_initialized w = (Ok (_initialized w && negb (in_bad_fork w)), w).
Proof.
  unfold is_initialized, _is_in_bad_fork; unfold_monad.
  destruct (_initialized w); reflexivity.
Qed.

(** The four ways through [_lazy_init]. *)
Lemma lazy_init_eq (w : World) :
  _lazy_init b w =
  if _initialized w && negb (in_bad_fork w) then (Ok tt, w)
  else if in_bad_fork w then (Raise bad_fork_error, w)
  else if has_xpu b
       then (Ok tt, set_initialized true (log_call C_init w))
       else (Raise not_compiled_error, w).
Proof.
  unfold _lazy_init, bind at 1.
  rewrite is_initialized_eq.
  destruct (_initialized w && negb (in_bad_fork w)) eqn:Hi; [reflexivity|].
  unfold bind at 1. rewrite is_initialized_eq, Hi.
  unfold _is_in_bad_fork, _is_compiled, _xpu_init; unfold_monad.
  destruct (in_bad_fork w); [reflexivity|].
  destruct (has_xpu b); reflexivity.
Qed.

Lemma lazy_init_bad_fork (w : World) :
  in_bad_fork w = true -> _lazy_init b w = (Raise bad_fork_error, w).
Proof.
  intros H. rewrite lazy_init_eq, H, andb_false_r. reflexivity.
Qed.

(** In a process that is not in a bad fork and has the backend, the call
    returns and leaves the flag set. *)
Lemma lazy_init_ok (w : World) :
  in_bad_fork w = false -> has_xpu b = true ->
  exists w', _lazy_init b w = (Ok tt, w') /\
             _initialized w' = true /\
             in_bad_fork w' = false /\
             device_count_cache w' = device_count_cache w /\
             active_device w' = active_device w /\
             active_stream w' = active_stream w /\
             (w' = w \/ native_log w' = native_log w ++ [C_init]).
Proof.
  intros Hf Hc. rewrite lazy_init_eq, Hf, Hc, andb_true_r.
  destruct (_initialized w) eqn:Hi.
  - exists w. repeat split; auto.
  - exists (set_initialized true (log_call C_init w)).
    cbn. repeat split; auto.
Qed.

Lemma lazy_init_again (w : World) :
  _initialized w = true -> in_bad_fork w = false ->
  _lazy_init b w = (Ok tt, w).
Proof.
  intros Hi Hf. rewrite lazy_init_eq, Hi, Hf. reflexivity.
Qed.

Lemma lazy_init_consistent (w : World) :
  consistent b w -> consistent b (snd (_lazy_init b w)).
Proof.
  intros Hw. rewrite lazy_init_eq.
  destruct (_initialized w && negb (in_bad_fork w)); [exact Hw|].
  destruct (in_bad_fork w); [exact Hw|].
  destruct (has_xpu b) eqn:Hc; [|exact Hw].
  destruct Hw as [_ H2]. split; cbn; auto.
Qed.

Lemma init_calls_log (c : NativeCall) (w : World) :
  init_calls (log_call c w) =
  (init_calls w + if is_C_init c then 1 else 0)%nat.
Proof.
  unfold init_calls, log_call; cbn.
  rewrite filter_app, length_app; cbn.
  destruct (is_C_init c); reflexivity.
Qed.

(** One call never clears the flag, and runs the native initialisation
    only when the flag is not yet set. *)
Lemma lazy_init_once (w : World) :
  let w' := snd (_lazy_init b w) in
  (_initialized w = true -> _initialized w' = true) /\
  (init_calls w' <= init_calls w + if _initialized w' then 1 else 0)%nat /\
  (_initialized w = true -> init_calls w' = init_calls w) /\
  in_bad_fork w' = in_bad_fork w.
Proof.
  cbv zeta. rewrite lazy_init_eq.
  destruct (_initialized w) eqn:Hi, (in_bad_fork w) eqn:Hf,
           (has_xpu b) eqn:Hc; cbn; rewrite ?Hi, ?Hf;
    repeat split; try lia; try congruence; intros;
    try discriminate;
    change (init_calls (set_initialized true (log_call C_init w)))
      with (init_calls (log_call C_init w));
    rewrite init_calls_log; cbn; lia.
Qed.
End LazyInit.

(** ** What every operation leaves intact

    [tame_step w w'] relates the world before and after a piece of the
    module: the flag is not cleared, the native initialisation has run at most
    once more and then only to set the flag, the fork state is untouched and
    the module state stays consistent. *)

Definition delta (w w' : World) : nat :=
  if _initialized w then 0%nat
  else if _initialized w' then 1%nat else 0%nat.

Record tame_step (b : Backend) (w w' : World) : Prop := mkTame {
  tame_flag : _initialized w = true -> _initialized w' = true;
  tame_calls : (init_calls w' <= init_calls w + delta w w')%nat;
  tame_fork : in_bad_fork w' = in_bad_fork w;
  tame_consistent : consistent b w -> consistent b w'
}.

Definition tame (b : Backend) {A} (c : M A) : Prop :=
  forall w, tame_step b w (snd (c w)).

Section Tame.
Variable b : Backend.

Lemma tame_step_refl (w : World) : tame_step b w w.
Proof.
  split; auto. unfold delta. lia.
Qed.

Lemma tame_step_trans (w1 w2 w3 : World) :
  tame_step b w1 w2 -> tame_step b w2 w3 -> tame_step b w1 w3.
Proof.
  intros [F1 C1 K1 I1] [F2 C2 K2 I2]. split; auto.
  - unfold delta in *.
    destruct (_initialized w1), (_initialized w2) eqn:E2,
             (_initialized w3) eqn:E3; lia.
  - congruence.
Qed.

(** A change that touches neither of the module globals, nor the fork
    state, nor the count of initialisations. *)
Lemma tame_step_frame (w w' : World) :
  _initialized w' = _initialized w ->
  device_count_cache w' = device_count_cache w ->
  in_bad_fork w' = in_bad_fork w ->
  init_calls w' = init_calls w ->
  tame_step b w w'.
Proof.
  intros Hi Hc Hf Hn. split.
  - congruence.
  - lia.
  - assumption.
  - unfold consistent. rewrite Hi, Hc. auto.
Qed.

Lemma tame_ret {A} (a : A) : tame b (ret a).
Proof. intros w. apply tame_step_refl. Qed.

Lemma tame_raise {A} (e : Exception) : tame b (@raise A e).
Proof. intros w. apply tame_step_refl. Qed.

Lemma tame_gets {A} (f : World -> A) : tame b (gets f).
Proof. intros w. apply tame_step_refl. Qed.

Lemma tame_bind {A B} (c : M A) (k : A -> M B) :
  tame b c -> (forall a, tame b (k a)) -> tame b (bind c k).
Proof.
  intros Hc Hk w. unfold bind. specialize (Hc w).
  destruct (c w) as [[a|e] w']; cbn in *; [|assumption].
  eapply tame_step_trans; [eassumption|apply Hk].
Qed.

Lemma tame_log (c : NativeCall) :
  is_C_init c = false -> tame b (modify (log_call c)).
Proof.
  intros Hc w. apply tame_step_frame; try reflexivity.
  cbn. rewrite init_calls_log, Hc. lia.
Qed.

Lemma tame_set_active_device (d : Z) : tame b (modify (set_active_device d)).
Proof. intros w. apply tame_step_frame; reflexivity. Qed.

Lemma tame_set_active_stream (d : Z) (s : Stream) :
  tame b (modify (set_active_stream d s)).
Proof. intros w. apply tame_step_frame; reflexivity. Qed.

Lemma tame_lazy_init : tame b (_lazy_init b).
Proof.
  intros w. destruct (lazy_init_once b w) as (F & C & E & K).
  split; auto using lazy_init_consistent.
  unfold delta. destruct (_initialized w) eqn:Hi.
  - rewrite (E eq_refl). lia.
  - exact C.
Qed.

Lemma tame_lru_cache (f : M Z) :
  tame b f ->
  (forall w v w', f w = (Ok v, w') -> v = count_of b) ->
  tame b (lru_cache f).
Proof.
  intros Hf Hv w. unfold lru_cache.
  destruct (device_count_cache w) eqn:Hc; [apply tame_step_refl|].
  specialize (Hf w). specialize (Hv w).
  destruct (f w) as [[v|e] w']; cbn in *; [|assumption].
  eapply tame_step_trans; [eassumption|].
  split; cbn; auto.
  - change (init_calls (set_device_count_cache (Some v) w'))
      with (init_calls w'). lia.
  - intros [H1 H2]. split; cbn; auto.
    intros n Hn. injection Hn as <-. eapply Hv. reflexivity.
Qed.
End Tame.

Create HintDb tame.
#[local] Hint Resolve tame_ret tame_raise tame_gets tame_set_active_device
  tame_set_active_stream tame_lazy_init : tame.

(** Break a computation into its statements. *)
Ltac tame_tac :=
  repeat first
    [ progress intros
    | solve [auto with tame]
    | apply tame_log; reflexivity
    | match goal with |- tame _ (bind _ _) => apply tame_bind end
    | match goal with
      | |- tame _ (if ?x then _ else _) => destruct x
      | |- tame _ (match ?x with _ => _ end) => destruct x
      | |- tame _ (let '(_, _) := ?x in _) => destruct x
      end ].

Section TameOperations.
Variable b : Backend.

Lemma tame_exchange (to : Z) : tame b (exchange b to).
Proof. unfold exchange. tame_tac. Qed.

Lemma tame_xpu_exchangeDevice (to : Z) : tame b (_xpu_exchangeDevice b to).
Proof. unfold _xpu_exchangeDevice. tame_tac. apply tame_exchange. Qed.

Lemma tame_xpu_maybeExchangeDevice (to : Z) :
  tame b (_xpu_maybeExchangeDevice b to).
Proof. unfold _xpu_maybeExchangeDevice. tame_tac. apply tame_exchange. Qed.

Lemma tame_device_count : tame b (device_count b).
Proof.
  unfold device_count. apply tame_lru_cache.
  - unfold _is_compiled, _xpu_getDeviceCount. tame_tac.
  - intros w v w'. unfold _is_compiled, _xpu_getDeviceCount, count_of.
    unfold_monad. destruct (has_xpu b); cbn; congruence.
Qed.

Lemma tame_is_available : tame b (is_available b).
Proof. unfold is_available. tame_tac. apply tame_device_count. Qed.

Lemma tame_current_device : tame b (current_device b).
Proof. unfold current_device, _xpu_getDevice. tame_tac. Qed.

Lemma tame_int_arg (v : option Z) : tame b (int_arg v).
Proof. unfold int_arg. tame_tac. Qed.

Lemma tame_get_device_index (d : DeviceRef) (optional : bool) :
  tame b (_get_device_index b d optional).
Proof.
  unfold _get_device_index. tame_tac;
    auto using tame_is_available, tame_current_device.
Qed.

Lemma tame_set_stream (s : option Stream) : tame b (set_stream b s).
Proof.
  unfold set_stream, _set_stream_by_id, _xpu_setStream. tame_tac.
Qed.

Lemma tame_current_stream (d : DeviceRef) : tame b (current_stream b d).
Proof.
  unfold current_stream, _xpu_getCurrentStream. tame_tac;
    auto using tame_get_device_index, tame_int_arg.
Qed.

Lemma tame_get_device_properties (d : DeviceRef) :
  tame b (get_device_properties b d).
Proof.
  unfold get_device_properties, _get_device_properties. tame_tac;
    auto using tame_get_device_index, tame_int_arg, tame_device_count.
Qed.

Lemma tame_run_op (op : Op) : tame b (run_op b op).
Proof.
  destruct op; unfold run_op, ignore, init, set_device, get_device_name,
    get_device_capability, current_device, synchronize, is_available,
    is_bf16_supported, is_initialized, _xpu_setDevice, _xpu_getDevice,
    _xpu_synchronize, _is_in_bad_fork;
  tame_tac;
  auto using tame_get_device_index, tame_get_device_properties,
    tame_set_stream, tame_current_stream, tame_device_count, tame_int_arg.
Qed.

Lemma tame_run_ops (ops : list Op) (w : World) :
  tame_step b w (run_ops b ops w).
Proof.
  revert w. induction ops as [|op ops IH]; intros w; cbn.
  - apply tame_step_refl.
  - eapply tame_step_trans; [apply tame_run_op|apply IH].
Qed.

(** The guards keep what their block keeps. *)
Lemma tame_with {G A} (ctx : M G) (enter : G -> M G)
    (exit : G -> M (G * bool)) (block : M A) :
  tame b ctx -> (forall g, tame b (enter g)) ->
  (forall g, tame b (exit g)) -> tame b block ->
  tame b (with_ ctx enter exit block).
Proof.
  intros Hc He Hx Hb w. unfold with_.
  specialize (Hc w). destruct (ctx w) as [[g0|e] w0]; cbn in *; auto.
  specialize (He g0 w0).
  destruct (enter g0 w0) as [[g|e] w1]; cbn in *;
    [|eauto using tame_step_trans].
  specialize (Hb w1). destruct (block w1) as [r w2]; cbn in *.
  specialize (Hx g w2).
  assert (Hall : tame_step b w (snd (exit g w2)))
    by eauto using tame_step_trans.
  destruct (exit g w2) as [[[g' s]|e] w3]; cbn in *; auto.
  destruct r; [assumption|]. destruct s; assumption.
Qed.

Lemma tame_with_device {A} (d : DeviceRef) (block : M A) :
  tame b block -> tame b (with_device b d block).
Proof.
  intros Hb. unfold with_device. apply tame_with; auto.
  - unfold device.__init__. tame_tac. apply tame_get_device_index.
  - intros g. unfold device.__enter__, _exchange_device. tame_tac;
      auto using tame_xpu_exchangeDevice, tame_int_arg.
  - intros g. unfold device.__exit__, _maybe_exchange_device. tame_tac;
      auto using tame_xpu_maybeExchangeDevice, tame_int_arg.
Qed.

Lemma tame_with_stream {A} (s : option Stream) (block : M A) :
  tame b block -> tame b (with_stream b s block).
Proof.
  intros Hb. unfold with_stream. apply tame_with; auto.
  - unfold stream, StreamContext.__init__. tame_tac;
      auto using tame_get_device_index.
  - intros g. unfold StreamContext.__enter__. tame_tac;
      auto using tame_current_stream, tame_set_stream.
    apply tame_with_device. apply tame_current_stream.
  - intros g. unfold StreamContext.__exit__, StreamContext.attr.
    tame_tac; auto using tame_set_stream.
Qed.

Lemma fresh_consistent (w : World) :
  _initialized w = false -> device_count_cache w = None -> consistent b w.
Proof.
  intros Hi Hc. split; intros; congruence.
Qed.

Lemma fork_consistent (w : World) : consistent b w -> consistent b (fork w).
Proof. intros H. exact H. Qed.
End TameOperations.

(** ** Queries that never touch the runtime *)

(** C10: [is_bf16_supported()] returns true in every process state, whatever
    the backend, the devices and the initialisation flag are; it raises
    nothing and leaves the whole state, the flag and the log of native calls
    included, as it was. *)
Theorem is_bf16_supported_always_true (w : World) :
  is_bf16_supported w = (Ok true, w).
Proof. reflexivity. Qed.

(** C9: [is_initialized()] returns the flag conjoined with the negation of
    the bad-fork probe, without raising or changing anything; in the child
    forked from a process that had initialised the backend the flag is still
    set and [is_initialized()] returns false. *)
Theorem is_initialized_flag_and_not_bad_fork :
  (forall w,
      is_initialized w = (Ok (_initialized w && negb (in_bad_fork w)), w)) /\
  (forall b w,
      has_xpu b = true -> in_bad_fork w = false -> _initialized w = false ->
      let child := fork (snd (init b w)) in
      _initialized child = true /\ in_bad_fork child = true /\
      is_initialized child = (Ok false, child)).
Proof.
  split; [exact is_initialized_eq|].
  intros b w Hc Hf Hi child.
  assert (E : child = set_in_bad_fork true
                        (set_initialized true (log_call C_init w))).
  { unfold child, init. rewrite lazy_init_eq, Hi, Hf, Hc. cbn.
    unfold fork, native_initialized. cbn.
    rewrite existsb_app. cbn. rewrite Hf, orb_true_r. reflexivity. }
  rewrite is_initialized_eq, E. cbn. auto.
Qed.

Lemma is_initialized_flag_and_not_bad_fork_witness :
  _initialized forked_child = true /\ in_bad_fork forked_child = true /\
  is_initialized forked_child = (Ok false, forked_child).
Proof.
  apply (proj2 is_initialized_flag_and_not_bad_fork two_devices fresh);
    reflexivity.
Defined.

(** ** The lazy initialisation gate *)

Lemma run_op_lazy_init_raises (b : Backend) (op : Op) (w : World)
    (e : Exception) :
  triggers_lazy_init op = true ->
  _lazy_init b w = (Raise e, w) ->
  run_op b op w = (Raise e, w).
Proof.
  intros Ht Hl.
  destruct op as [ | | | | | |[s|]| | | | | | ]; try discriminate Ht;
    unfold run_op, ignore, init, set_device, get_device_name,
      get_device_capability, get_device_properties, current_device,
      set_stream, current_stream, synchronize;
    unfold bind; rewrite Hl; reflexivity.
Qed.

(** C5: in a bad fork every operation that starts with the lazy
    initialisation raises the re-initialisation error and leaves the state,
    hence the log of native calls, untouched, and so does entering the
    stream guard unless it is a no-op; without the backend each of the
    operations fails as well, the lazy initialisation with the not-compiled
    assertion when the process is not in a bad fork. *)
Theorem bad_fork_or_missing_backend_stops_lazy_init :
  (forall b op w,
      in_bad_fork w = true -> triggers_lazy_init op = true ->
      run_op b op w = (Raise bad_fork_error, w)) /\
  (forall b g w,
      in_bad_fork w = true ->
      StreamContext.__enter__ b g w = (Raise bad_fork_error, w) \/
      StreamContext.__enter__ b g w = (Ok g, w)) /\
  (forall b op w,
      has_xpu b = false -> consistent b w -> triggers_lazy_init op = true ->
      (exists e, run_op b op w = (Raise e, w)) /\
      (in_bad_fork w = false ->
       _lazy_init b w = (Raise not_compiled_error, w))).
Proof.
  split; [|split].
  2: { intros b g w Hf. unfold StreamContext.__enter__.
       destruct (StreamContext.stream g); [|right; reflexivity].
       destruct (StreamContext.idx g =? -1); [right; reflexivity|].
       left. unfold current_stream, bind.
       rewrite lazy_init_bad_fork by exact Hf. reflexivity. }
  - intros b op w Hf Ht.
    apply run_op_lazy_init_raises; auto using lazy_init_bad_fork.
  - intros b op w Hc [Hi _] Ht.
    assert (Hi' : _initialized w = false).
    { destruct (_initialized w); [|reflexivity].
      specialize (Hi eq_refl). congruence. }
    assert (Hl : _lazy_init b w =
                 if in_bad_fork w then (Raise bad_fork_error, w)
                 else (Raise not_compiled_error, w)).
    { rewrite lazy_init_eq, Hi', Hc. reflexivity. }
    split.
    + destruct (in_bad_fork w);
        eexists; apply run_op_lazy_init_raises; eauto.
    + intros Hf. rewrite Hl, Hf. reflexivity.
Qed.

Lemma bad_fork_or_missing_backend_stops_lazy_init_witness :
  run_op two_devices (op_get_device_properties (Index 0)) forked_child
  = (Raise bad_fork_error, forked_child) /\
  (exists e, run_op no_backend op_current_device fresh = (Raise e, fresh)) /\
  _lazy_init no_backend fresh = (Raise not_compiled_error, fresh).
Proof.
  split.
  - apply (proj1 bad_fork_or_missing_backend_stops_lazy_init); reflexivity.
  - assert (H : consistent no_backend fresh)
      by (apply fresh_consistent; reflexivity).
    destruct (proj2 (proj2 bad_fork_or_missing_backend_stops_lazy_init)
                no_backend op_current_device fresh eq_refl H eq_refl)
      as [H1 H2].
    split; [exact H1|apply H2; reflexivity].
Defined.

(** ** The device count *)

Lemma device_count_eq (b : Backend) (w : World) :
  device_count b w =
  match device_count_cache w with
  | Some n => (Ok n, w)
  | None =>
    if has_xpu b
    then (Ok (xpu_device_count b),
          set_device_count_cache (Some (xpu_device_count b))
            (log_call C_getDeviceCount w))
    else (Ok 0, set_device_count_cache (Some 0) w)
  end.
Proof.
  unfold device_count, lru_cache, _is_compiled, _xpu_getDeviceCount.
  unfold_monad.
  destruct (device_count_cache w); [reflexivity|].
  destruct (has_xpu b); reflexivity.
Qed.

(** In a consistent process [device_count()] returns the number of usable
    devices and leaves everything but its cache and the log as it was. *)
Lemma device_count_consistent (b : Backend) (w : World) :
  consistent b w ->
  exists w', device_count b w = (Ok (count_of b), w') /\
             _initialized w' = _initialized w /\
             in_bad_fork w' = in_bad_fork w /\
             active_device w' = active_device w /\
             active_stream w' = active_stream w /\
             device_count_cache w' = Some (count_of b) /\
             init_calls w' = init_calls w.
Proof.
  intros [_ Hk]. rewrite device_count_eq. unfold count_of in *.
  destruct (device_count_cache w) as [n|] eqn:Hn.
  - rewrite (Hk n eq_refl). exists w. rewrite Hn, (Hk n eq_refl). auto 10.
  - destruct (has_xpu b); eexists; (split; [reflexivity|]); cbn;
      repeat split.
    unfold init_calls; cbn. rewrite filter_app, length_app; cbn. lia.
Qed.

(** C6: without the backend [device_count()] returns 0 and
    [is_available()] returns false, neither raises nor calls into the native
    extension; and in every process both return, [is_available()] returning
    true exactly when the count [device_count()] returns is positive, also
    when they are called one after the other. *)
Theorem device_count_and_is_available :
  (forall b w,
      has_xpu b = false -> consistent b w ->
      exists w', device_count b w = (Ok 0, w') /\
                 is_available b w = (Ok false, w') /\
                 native_log w' = native_log w) /\
  (forall b w,
      exists n w', device_count b w = (Ok n, w') /\
                   is_available b w = (Ok (n >? 0), w') /\
                   device_count b w' = (Ok n, w') /\
                   is_available b w' = (Ok (n >? 0), w')).
Proof.
  split.
  - intros b w Hc [_ Hk]. unfold is_available, bind.
    rewrite device_count_eq, Hc.
    destruct (device_count_cache w) as [n|] eqn:Hn.
    + rewrite (Hk n eq_refl). unfold count_of. rewrite Hc.
      exists w. auto.
    + eexists. repeat split.
  - intros b w. unfold is_available, bind. rewrite !device_count_eq.
    destruct (device_count_cache w) as [n|] eqn:Hn.
    + exists n, w. rewrite device_count_eq, Hn. auto.
    + destruct (has_xpu b); do 2 eexists;
        (split; [reflexivity|]); rewrite device_count_eq; cbn; auto.
Qed.

Lemma device_count_and_is_available_witness :
  exists w', device_count no_backend fresh = (Ok 0, w') /\
             is_available no_backend fresh = (Ok false, w') /\
             native_log w' = native_log fresh.
Proof.
  apply (proj1 device_count_and_is_available no_backend fresh).
  - reflexivity.
  - apply fresh_consistent; reflexivity.
Defined.

(** ** Device properties *)

Lemma count_of_positive (b : Backend) (i : Z) :
  0 <= i < count_of b ->
  has_xpu b = true /\ valid_index b i = true.
Proof.
  unfold count_of, valid_index. destruct (has_xpu b); [|lia].
  intros H. split; [reflexivity|].
  apply andb_true_intro. split; [apply Z.leb_le|apply Z.ltb_lt]; lia.
Qed.

Lemma same_selection_refl (w : World) : same_selection w w.
Proof. split; reflexivity. Qed.

Lemma same_selection_trans (w1 w2 w3 : World) :
  same_selection w1 w2 -> same_selection w2 w3 -> same_selection w1 w3.
Proof. intros [H1 H2] [H3 H4]. split; congruence. Qed.

(** An integer goes through the resolver and the integer check as it
    is. *)
Lemma resolve_index_then {A} (b : Backend) (i : Z) (optional : bool)
    (k : Z -> M A) (w : World) :
  (d <- _get_device_index b (Index i) optional ;;
   d' <- int_arg d ;; k d') w = k i w.
Proof. reflexivity. Qed.

Lemma ready_frame (b : Backend) (w w' : World) :
  _initialized w' = _initialized w -> in_bad_fork w' = in_bad_fork w ->
  device_count_cache w' = device_count_cache w ->
  ready b w -> ready b w'.
Proof.
  intros Hi Hf Hc (I & F & K1 & K2). unfold ready, consistent.
  rewrite Hi, Hf, Hc. auto.
Qed.

Lemma ready_lazy_init (b : Backend) (w : World) :
  ready b w -> _lazy_init b w = (Ok tt, w).
Proof. intros (I & F & _). apply lazy_init_again; assumption. Qed.

(** The lazy initialisation makes a usable process ready. *)
Lemma lazy_init_ready (b : Backend) (w : World) :
  consistent b w -> in_bad_fork w = false -> has_xpu b = true ->
  exists wi, _lazy_init b w = (Ok tt, wi) /\ ready b wi /\
             same_selection w wi.
Proof.
  intros Hw Hf Hc.
  destruct (lazy_init_ok b w Hf Hc) as (wi & E & I & F & _ & D & S & _).
  exists wi. split; [exact E|]. split; [|split; assumption].
  split; [exact I|]. split; [exact F|].
  pose proof (lazy_init_consistent b w Hw) as H. rewrite E in H. exact H.
Qed.

Lemma device_count_ready (b : Backend) (w : World) :
  ready b w ->
  exists w', device_count b w = (Ok (count_of b), w') /\ ready b w' /\
             same_selection w w'.
Proof.
  intros (I & F & Hw).
  destruct (device_count_consistent b w Hw)
    as (w' & E & I' & F' & D & S & K & _).
  exists w'. split; [exact E|]. split; [|split; assumption].
  split; [congruence|]. split; [congruence|]. split.
  - intros _. apply Hw. exact I.
  - intros n Hn. congruence.
Qed.

Lemma current_device_ready (b : Backend) (w : World) :
  ready b w ->
  current_device b w = (Ok (active_device w), log_call C_getDevice w).
Proof.
  intros H. unfold current_device, bind. rewrite (ready_lazy_init b w H).
  reflexivity.
Qed.

Lemma resolves_index (b : Backend) (i : Z) (w : World) :
  resolves_to b (Index i) i w.
Proof.
  intros w1 H1 _. exists w1. split; [reflexivity|].
  split; [exact H1|split; reflexivity].
Qed.

(** An absent reference stands for the active device when there is one:
    the resolver asks for the device count and for the current device. *)
Lemma resolves_absent (b : Backend) (w : World) :
  0 < count_of b -> resolves_to b Absent (active_device w) w.
Proof.
  intros Hn w1 H1 [D1 S1].
  destruct (device_count_ready b w1 H1) as (w2 & E2 & H2 & D2 & S2).
  exists (log_call C_getDevice w2). split; [|split].
  - unfold _get_device_index, is_available, bind at 1. unfold bind at 1.
    rewrite E2. unfold ret at 1.
    destruct (count_of b >? 0) eqn:G.
    + unfold bind. rewrite (current_device_ready b w2 H2). unfold ret.
      rewrite D2, D1. reflexivity.
    + rewrite Z.gtb_ltb in G. apply Z.ltb_ge in G. lia.
  - exact H2.
  - split; cbn; assumption.
Qed.

(** A reference that resolves to a valid index, in a process that is not in
    a bad fork: the call initialises the backend if needed and returns the
    snapshot. *)
Lemma get_device_properties_resolved (b : Backend) (w : World)
    (d : DeviceRef) (i : Z) :
  consistent b w -> in_bad_fork w = false -> 0 <= i < count_of b ->
  resolves_to b d i w ->
  exists w', get_device_properties b d w = (Ok (xpu_properties b i), w') /\
             ready b w' /\ same_selection w w'.
Proof.
  intros Hw Hf Hi Hd.
  destruct (count_of_positive b i Hi) as [Hc Hv].
  destruct (lazy_init_ready b w Hw Hf Hc) as (w1 & E1 & H1 & S1).
  destruct (Hd w1 H1 S1) as (w2 & E2 & H2 & S2).
  destruct (device_count_ready b w2 H2) as (w3 & E3 & H3 & S3).
  unfold get_device_properties, bind at 1. rewrite E1.
  unfold bind at 1. rewrite E2. unfold int_arg, bind at 1, ret at 1.
  destruct (i <? 0) eqn:Hneg; [apply Z.ltb_lt in Hneg; lia|].
  unfold bind at 1. rewrite E3.
  destruct (i >=? count_of b) eqn:Hge; [apply Z.geb_le in Hge; lia|].
  unfold _get_device_properties; unfold_monad. rewrite Hv.
  eexists. split; [reflexivity|]. split.
  - exact H3.
  - eauto using same_selection_trans.
Qed.

Lemma get_device_properties_valid (b : Backend) (w : World) (i : Z) :
  consistent b w -> in_bad_fork w = false -> 0 <= i < count_of b ->
  exists w', get_device_properties b (Index i) w
             = (Ok (xpu_properties b i), w') /\
             _initialized w' = true /\
             in_bad_fork w' = false /\
             consistent b w' /\
             active_device w' = active_device w /\
             active_stream w' = active_stream w.
Proof.
  intros Hw Hf Hi.
  destruct (get_device_properties_resolved b w (Index i) i Hw Hf Hi
              (resolves_index b i w)) as (w' & E & (I & F & K) & D & S).
  exists w'. auto 10.
Qed.

(** An index that names no device, in a process that is not in a bad
    fork: the call fails with an assertion. *)
Lemma get_device_properties_invalid (b : Backend) (w : World) (i : Z) :
  consistent b w -> in_bad_fork w = false -> ~ (0 <= i < count_of b) ->
  exists msg w', get_device_properties b (Index i) w
                 = (Raise (AssertionError msg), w').
Proof.
  intros Hw Hf Hi.
  destruct (has_xpu b) eqn:Hc.
  - destruct (lazy_init_ready b w Hw Hf Hc) as (w1 & E1 & H1 & _).
    unfold get_device_properties, bind at 1. rewrite E1.
    rewrite resolve_index_then.
    destruct (i <? 0) eqn:Hneg; [do 2 eexists; reflexivity|].
    destruct (device_count_ready b w1 H1) as (w2 & E2 & _).
    unfold bind at 1. rewrite E2.
    destruct (i >=? count_of b) eqn:Hge; [do 2 eexists; reflexivity|].
    apply Z.ltb_ge in Hneg.
    assert (i < count_of b) by (rewrite Z.geb_leb in Hge;
                                apply Z.leb_gt in Hge; lia).
    lia.
  - unfold get_device_properties, bind at 1. rewrite lazy_init_eq, Hf, Hc.
    destruct Hw as [Hw _].
    destruct (_initialized w); [specialize (Hw eq_refl); congruence|].
    do 2 eexists. reflexivity.
Qed.

(** C3 (amended): in a process that is not in a bad fork,
    [get_device_properties(index)] raises an assertion failure for every
    index outside [0, device_count()), and for every index inside that range
    it returns the properties snapshot of that device, with the backend
    initialised afterwards. *)
Theorem get_device_properties_checks_index (b : Backend) (w : World)
    (i n : Z) (w0 : World) :
  consistent b w -> in_bad_fork w = false ->
  device_count b w = (Ok n, w0) ->
  (~ (0 <= i < n) ->
   exists msg w', get_device_properties b (Index i) w
                  = (Raise (AssertionError msg), w')) /\
  (0 <= i < n ->
   exists w', get_device_properties b (Index i) w
              = (Ok (xpu_properties b i), w') /\
              is_initialized w' = (Ok true, w')).
Proof.
  intros Hw Hf Hn.
  destruct (device_count_consistent b w Hw) as (w0' & E & _).
  assert (n = count_of b) by congruence. subst n.
  split; intros Hi.
  - apply get_device_properties_invalid; assumption.
  - destruct (get_device_properties_valid b w i Hw Hf Hi)
      as (w' & E' & I' & F' & _).
    exists w'. split; [exact E'|].
    rewrite is_initialized_eq, I', F'. reflexivity.
Qed.

Lemma get_device_properties_checks_index_witness :
  (exists msg w', get_device_properties two_devices (Index 2) fresh
                  = (Raise (AssertionError msg), w')) /\
  (exists w', get_device_properties two_devices (Index 1) fresh
              = (Ok (sample_properties 1), w') /\
              is_initialized w' = (Ok true, w')).
Proof.
  assert (Hw : consistent two_devices fresh)
    by (apply fresh_consistent; reflexivity).
  split.
  - apply (proj1 (get_device_properties_checks_index two_devices fresh 2 2 _
                    Hw eq_refl eq_refl)). lia.
  - apply (proj2 (get_device_properties_checks_index two_devices fresh 1 2 _
                    Hw eq_refl eq_refl)). lia.
Defined.

(** C3 as stated fails in a bad fork: with two devices, index 5 is outside
    the range and index 0 inside it, and for both the call raises the
    re-initialisation error, which is a [RuntimeError] and no assertion
    failure, and returns no snapshot. *)
Lemma get_device_properties_bad_fork_counterexample :
  fst (device_count two_devices forked_child) = Ok 2 /\
  ~ (0 <= 5 < 2) /\
  get_device_properties two_devices (Index 5) forked_child
  = (Raise bad_fork_error, forked_child) /\
  (forall msg, bad_fork_error <> AssertionError msg) /\
  0 <= 0 < 2 /\
  get_device_properties two_devices (Index 0) forked_child
  = (Raise bad_fork_error, forked_child).
Proof.
  repeat split; try reflexivity; try lia.
  intros msg H. discriminate H.
Qed.

(** C7: [get_device_name] and [get_device_capability] are
    [get_device_properties] followed by a projection: whatever the device
    reference and the process state, they return the name field, and the
    capability fields, of the snapshot [get_device_properties] returns there
    and leave the same state behind, and they raise what it raises; for a
    valid index in a process that is not in a bad fork all three return, and
    they return the same when called after one another. *)
Theorem name_and_capability_of_properties :
  (forall b d w,
      get_device_name b d w =
      match get_device_properties b d w with
      | (Ok p, w') => (Ok (name p), w')
      | (Raise e, w') => (Raise e, w')
      end /\
      get_device_capability b d w =
      match get_device_properties b d w with
      | (Ok p, w') =>
        (Ok [ ("max_work_group_size"%string, CapInt (max_work_group_size p));
              ("max_num_sub_groups"%string, CapInt (max_num_sub_groups p));
              ("sub_group_sizes"%string, CapList (sub_group_sizes p)) ], w')
      | (Raise e, w') => (Raise e, w')
      end) /\
  (forall b w i n w0,
      consistent b w -> in_bad_fork w = false ->
      device_count b w = (Ok n, w0) -> 0 <= i < n ->
      exists p w1 w2 w3,
        get_device_properties b (Index i) w = (Ok p, w1) /\
        get_device_name b (Index i) w = (Ok (name p), w1) /\
        get_device_capability b (Index i) w = (Ok (capability_of p), w1) /\
        get_device_name b (Index i) w1 = (Ok (name p), w2) /\
        get_device_capability b (Index i) w2 = (Ok (capability_of p), w3)).
Proof.
  assert (G : forall b d w,
      get_device_name b d w =
      match get_device_properties b d w with
      | (Ok p, w') => (Ok (name p), w')
      | (Raise e, w') => (Raise e, w')
      end /\
      get_device_capability b d w =
      match get_device_properties b d w with
      | (Ok p, w') => (Ok (capability_of p), w')
      | (Raise e, w') => (Raise e, w')
      end).
  { intros b d w. unfold get_device_name, get_device_capability, bind.
    destruct (get_device_properties b d w) as [[p|e] w']; split; reflexivity. }
  split; [exact G|].
  intros b w i n w0 Hw Hf Hn Hi.
  destruct (device_count_consistent b w Hw) as (w0' & E & _).
  assert (n = count_of b) by congruence. subst n.
  destruct (get_device_properties_valid b w i Hw Hf Hi)
    as (w1 & E1 & _ & F1 & Hw1 & _).
  destruct (get_device_properties_valid b w1 i Hw1 F1 Hi)
    as (w2 & E2 & _ & F2 & Hw2 & _).
  destruct (get_device_properties_valid b w2 i Hw2 F2 Hi)
    as (w3 & E3 & _).
  exists (xpu_properties b i), w1, w2, w3.
  rewrite (proj1 (G b (Index i) w)), (proj2 (G b (Index i) w)), E1.
  rewrite (proj1 (G b (Index i) w1)), E2.
  rewrite (proj2 (G b (Index i) w2)), E3.
  auto.
Qed.

Lemma name_and_capability_of_properties_witness :
  exists p w1 w2 w3,
    get_device_properties two_devices (Index 1) fresh = (Ok p, w1) /\
    get_device_name two_devices (Index 1) fresh = (Ok (name p), w1) /\
    get_device_capability two_devices (Index 1) fresh
    = (Ok (capability_of p), w1) /\
    get_device_name two_devices (Index 1) w1 = (Ok (name p), w2) /\
    get_device_capability two_devices (Index 1) w2
    = (Ok (capability_of p), w3).
Proof.
  apply (proj2 name_and_capability_of_properties two_devices fresh 1 2
           (snd (device_count two_devices fresh))).
  - apply fresh_consistent; reflexivity.
  - reflexivity.
  - reflexivity.
  - lia.
Defined.

(** ** The device guard *)

Lemma valid_index_bounds (b : Backend) (d : Z) :
  valid_index b d = true -> 0 <= d < xpu_device_count b.
Proof.
  unfold valid_index. intros H. apply andb_prop in H as [H1 H2].
  apply Z.leb_le in H1. apply Z.ltb_lt in H2. lia.
Qed.

Lemma exchange_valid (b : Backend) (to : Z) (w : World) :
  valid_index b to = true ->
  exchange b to w = (Ok (active_device w), set_active_device to w).
Proof.
  intros Hv. pose proof (valid_index_bounds b to Hv) as Hb.
  unfold exchange. destruct (to <? 0) eqn:E; [apply Z.ltb_lt in E; lia|].
  rewrite Hv. reflexivity.
Qed.

Lemma exchange_negative (b : Backend) (to : Z) (w : World) :
  to < 0 -> exchange b to w = (Ok (-1), w).
Proof.
  intros Hn. unfold exchange. apply Z.ltb_lt in Hn. rewrite Hn. reflexivity.
Qed.

Lemma exchange_device_valid (b : Backend) (to : Z) (w : World) :
  has_xpu b = true -> valid_index b to = true ->
  _exchange_device b (Some to) w
  = (Ok (active_device w),
     set_active_device to (log_call (C_exchangeDevice to) w)) /\
  _maybe_exchange_device b (Some to) w
  = (Ok (active_device w),
     set_active_device to (log_call (C_maybeExchangeDevice to) w)).
Proof.
  intros Hc Hv.
  unfold _exchange_device, _maybe_exchange_device, _xpu_exchangeDevice,
    _xpu_maybeExchangeDevice, int_arg.
  rewrite Hc. unfold bind, ret, modify.
  rewrite !exchange_valid by exact Hv. split; reflexivity.
Qed.

Lemma exchange_device_negative (b : Backend) (to : Z) (w : World) :
  has_xpu b = true -> to < 0 ->
  _exchange_device b (Some to) w
  = (Ok (-1), log_call (C_exchangeDevice to) w) /\
  _maybe_exchange_device b (Some to) w
  = (Ok (-1), log_call (C_maybeExchangeDevice to) w).
Proof.
  intros Hc Hv.
  unfold _exchange_device, _maybe_exchange_device, _xpu_exchangeDevice,
    _xpu_maybeExchangeDevice, int_arg.
  rewrite Hc. unfold bind, ret, modify.
  rewrite !exchange_negative by exact Hv. split; reflexivity.
Qed.

(** Entering and leaving the guard for a valid index, from the state the
    constructor leaves. *)
Lemma with_device_from {T} (b : Backend) (w w0 : World) (d : DeviceRef)
    (to : Z) (block : M T) :
  has_xpu b = true -> valid_index b to = true ->
  valid_index b (active_device w0) = true ->
  _get_device_index b d true w = (Ok (Some to), w0) ->
  let w1 := set_active_device to (log_call (C_exchangeDevice to) w0) in
  let w2 := snd (block w1) in
  with_device b d block w =
  (propagate (fst (block w1)),
   set_active_device (active_device w0)
     (log_call (C_maybeExchangeDevice (active_device w0)) w2)).
Proof.
  intros Hc Hv Hcur Hd w1 w2.
  unfold with_device, with_, device.__init__, bind at 1. rewrite Hd.
  unfold ret at 1.
  unfold device.__enter__, bind at 1. cbn [device.idx device.prev_idx].
  rewrite (proj1 (exchange_device_valid b to w0 Hc Hv)).
  unfold ret at 1. fold w1.
  destruct (block w1) as [r w2'] eqn:Eb. subst w2. cbn [snd fst].
  unfold device.__exit__, bind at 1. cbn [device.idx device.prev_idx].
  rewrite (proj2 (exchange_device_valid b _ w2' Hc Hcur)).
  unfold ret at 1. destruct r; reflexivity.
Qed.

(** Entering and leaving the guard for a valid index. *)
Lemma with_device_valid {T} (b : Backend) (w : World) (d : DeviceRef)
    (to : Z) (block : M T) :
  has_xpu b = true -> valid_index b to = true ->
  valid_index b (active_device w) = true ->
  _get_device_index b d true w = (Ok (Some to), w) ->
  let w1 := set_active_device to (log_call (C_exchangeDevice to) w) in
  let w2 := snd (block w1) in
  with_device b d block w =
  (propagate (fst (block w1)),
   set_active_device (active_device w)
     (log_call (C_maybeExchangeDevice (active_device w)) w2)).
Proof.
  intros Hc Hv Hcur Hd. apply with_device_from; assumption.
Qed.

(** Entering and leaving the guard for a negative index. *)
Lemma with_device_negative {T} (b : Backend) (w : World) (i : Z)
    (block : M T) :
  has_xpu b = true -> i < 0 ->
  let w1 := log_call (C_exchangeDevice i) w in
  let w2 := snd (block w1) in
  with_device b (Index i) block w =
  (propagate (fst (block w1)), log_call (C_maybeExchangeDevice (-1)) w2).
Proof.
  intros Hc Hi w1 w2.
  unfold with_device, with_, device.__init__, _get_device_index.
  unfold bind at 1, ret at 1 2.
  unfold device.__enter__, bind at 1. cbn [device.idx device.prev_idx].
  rewrite (proj1 (exchange_device_negative b i w Hc Hi)).
  unfold ret at 1. fold w1.
  destruct (block w1) as [r w2'] eqn:Eb. subst w2. cbn [snd fst].
  unfold device.__exit__, bind at 1. cbn [device.idx device.prev_idx].
  rewrite (proj2 (exchange_device_negative b (-1) w2' Hc ltac:(lia))).
  unfold ret at 1. destruct r; reflexivity.
Qed.

(** C1: with the active device [B] and an index [A], both in
    [0, device_count()), the block of [with device(A)] runs with [A] active,
    the statement returns what the block returns or raises what it raises,
    and on both ways out the active device is [B] again, whatever the block
    did to the state. *)
Theorem device_guard_round_trip {T} (b : Backend) (w : World) (A B n : Z)
    (w0 : World) (block : M T) :
  consistent b w -> device_count b w = (Ok n, w0) ->
  0 <= A < n -> 0 <= B < n -> active_device w = B ->
  exists w1 w3,
    active_device w1 = A /\
    with_device b (Index A) block w = (propagate (fst (block w1)), w3) /\
    active_device w3 = B.
Proof.
  intros Hw Hn HA HB Hcur.
  destruct (device_count_consistent b w Hw) as (w0' & E & _).
  assert (n = count_of b) by congruence. subst n.
  destruct (count_of_positive b A HA) as [Hc HvA].
  destruct (count_of_positive b B HB) as [_ HvB].
  rewrite <- Hcur in HvB.
  do 2 eexists. split; [|split].
  2: { apply with_device_valid with (to := A); auto. }
  - reflexivity.
  - cbn. exact Hcur.
Qed.

Lemma device_guard_round_trip_witness :
  exists w1 w3,
    active_device w1 = 1 /\
    with_device two_devices (Index 1) (raise (A := unit) (ValueError "boom"))
      fresh
    = (propagate (fst (raise (A := unit) (ValueError "boom") w1)), w3) /\
    active_device w3 = 0.
Proof.
  apply (device_guard_round_trip two_devices fresh 1 0 2
           (snd (device_count two_devices fresh))).
  - apply fresh_consistent; reflexivity.
  - reflexivity.
  - lia.
  - lia.
  - reflexivity.
Defined.

(** ** Negative and absent indices *)


(** [device_count()] in a consistent process, initialised or not. *)
Lemma device_count_keeps (b : Backend) (w : World) :
  consistent b w ->
  exists w', device_count b w = (Ok (count_of b), w') /\
             consistent b w' /\ in_bad_fork w' = in_bad_fork w /\
             same_selection w w'.
Proof.
  intros Hw.
  destruct (device_count_consistent b w Hw)
    as (w' & E & I' & F' & D & S & K & _).
  exists w'. split; [exact E|]. split; [|split; [exact F'|split; assumption]].
  split.
  - rewrite I'. apply Hw.
  - intros n Hn. congruence.
Qed.

(** The resolver on an absent reference, from a state that need not be
    initialised: it asks for the device count, initialises the backend and
    asks for the current device. *)
Lemma get_device_index_absent (b : Backend) (w : World) :
  consistent b w -> in_bad_fork w = false -> 0 < count_of b ->
  exists w0, _get_device_index b Absent true w
             = (Ok (Some (active_device w)), w0) /\
             ready b w0 /\ same_selection w w0.
Proof.
  intros Hw Hf Hn.
  assert (Hc : has_xpu b = true).
  { unfold count_of in Hn. destruct (has_xpu b); [reflexivity|lia]. }
  destruct (device_count_keeps b w Hw) as (w1 & E1 & Hw1 & F1 & D1 & S1).
  rewrite Hf in F1.
  destruct (lazy_init_ready b w1 Hw1 F1 Hc) as (w2 & E2 & H2 & D2 & S2).
  exists (log_call C_getDevice w2). split; [|split].
  - unfold _get_device_index, is_available, bind at 1. unfold bind at 1.
    rewrite E1. unfold ret at 1.
    destruct (count_of b >? 0) eqn:G.
    + unfold current_device, bind. rewrite E2.
      unfold _xpu_getDevice; unfold_monad. cbn. rewrite D2, D1. reflexivity.
    + rewrite Z.gtb_ltb in G. apply Z.ltb_ge in G. lia.
  - exact H2.
  - split; cbn; congruence.
Qed.

Lemma stream_eta (s : Stream) :
  mkStream (stream_id s) (device_index s) (device_type s) = s.
Proof. destruct s; reflexivity. Qed.

(** [current_stream] for a reference that resolves to a valid index. *)
Lemma current_stream_resolved (b : Backend) (w : World) (d : DeviceRef)
    (i : Z) :
  consistent b w -> in_bad_fork w = false -> has_xpu b = true ->
  valid_index b i = true -> resolves_to b d i w ->
  exists w', current_stream b d w = (Ok (active_stream w i), w') /\
             ready b w' /\ same_selection w w' /\
             exists l, native_log w' = l ++ [C_getCurrentStream i].
Proof.
  intros Hw Hf Hc Hv Hd. pose proof (valid_index_bounds b i Hv) as Hb.
  destruct (lazy_init_ready b w Hw Hf Hc) as (w1 & E1 & H1 & S1).
  destruct (Hd w1 H1 S1) as (w2 & E2 & H2 & S2).
  exists (log_call (C_getCurrentStream i) w2). split; [|split; [|split]].
  - unfold current_stream, bind at 1. rewrite E1.
    unfold bind at 1. rewrite E2. unfold int_arg, bind at 1, ret at 1.
    unfold _xpu_getCurrentStream; unfold_monad.
    destruct (i <? 0) eqn:E; [apply Z.ltb_lt in E; lia|].
    rewrite Hv. cbn. rewrite stream_eta.
    destruct S1 as [_ S1]. destruct S2 as [_ S2]. rewrite S2, S1.
    reflexivity.
  - exact H2.
  - destruct S1, S2. split; cbn; congruence.
  - eexists. reflexivity.
Qed.




(** ** The stream guard *)

(** [set_stream] in an initialised process. *)
Lemma set_stream_ready (b : Backend) (w : World) (s : Stream) :
  _initialized w = true -> in_bad_fork w = false ->
  valid_index b (device_index s) = true ->
  exists w',
    set_stream b (Some s) w = (Ok tt, w') /\
    _initialized w' = true /\ in_bad_fork w' = false /\
    native_log w' = native_log w ++
      [C_setStream (stream_id s) (device_index s) (device_type s)] /\
    active_stream w' (device_index s) = s /\
    (forall d, d <> device_index s -> active_stream w' d = active_stream w d)
    /\
    active_device w' = (if set_stream_selects_device b then device_index s
                        else active_device w).
Proof.
  intros Hi Hf Hv.
  unfold set_stream, bind at 1. rewrite lazy_init_again by assumption.
  unfold _set_stream_by_id, _xpu_setStream; unfold_monad. rewrite Hv.
  rewrite stream_eta.
  destruct (set_stream_selects_device b); eexists;
    (split; [reflexivity|]); cbn; rewrite Z.eqb_refl;
    repeat split; auto;
    intros d Hd; apply Z.eqb_neq in Hd; rewrite Hd; reflexivity.
Qed.

Lemma resolves_handle (b : Backend) (w : World) (s : Stream) :
  device_type s = XPU ->
  resolves_to b (Handle (stream_device s)) (device_index s) w.
Proof.
  intros Ht w1 H1 _. exists w1. split; [|split; [exact H1|split; reflexivity]].
  unfold _get_device_index, stream_device. cbn. rewrite Ht. reflexivity.
Qed.

Lemma get_device_index_handle (b : Backend) (w : World) (s : Stream) :
  device_type s = XPU ->
  _get_device_index b (Handle (stream_device s)) true w
  = (Ok (Some (device_index s)), w).
Proof.
  intros Ht. unfold _get_device_index, stream_device. cbn. rewrite Ht.
  reflexivity.
Qed.

Lemma streams_on_other_devices (s0 s1 : Stream) :
  device_index s1 <> device_index s0 ->
  TorchDevice_eqb (stream_device s0) (stream_device s1) = false.
Proof.
  intros H. unfold TorchDevice_eqb, stream_device. cbn.
  apply not_eq_sym, Z.eqb_neq in H. rewrite H. apply andb_false_r.
Qed.

(** Building the guard in a process with a device: its index is the active
    device. *)
Lemma stream_guard_init (b : Backend) (s : option Stream) (w : World) :
  consistent b w -> in_bad_fork w = false -> 0 < count_of b ->
  exists w0,
    StreamContext.__init__ b s w
    = (Ok (StreamContext.mk s (active_device w) None None), w0) /\
    ready b w0 /\ same_selection w w0.
Proof.
  intros Hw Hf Hn.
  destruct (get_device_index_absent b w Hw Hf Hn) as (w0 & E & H0 & S0).
  exists w0. split; [|split; assumption].
  unfold StreamContext.__init__, bind. rewrite E. reflexivity.
Qed.

Section StreamGuard.
Variable b : Backend.
Variables S0 S1 : Stream.
Hypothesis S0_valid : valid_index b (device_index S0) = true.
Hypothesis S1_valid : valid_index b (device_index S1) = true.
Hypothesis S1_xpu : device_type S1 = XPU.
Hypothesis other_device : device_index S1 <> device_index S0.
Hypothesis compiled : has_xpu b = true.

(** Entering the guard on device [D0] with a target on device [D1]. *)
Lemma stream_guard_enter (w : World) :
  consistent b w -> in_bad_fork w = false ->
  active_device w = device_index S0 ->
  active_stream w (device_index S0) = S0 ->
  exists w1,
    StreamContext.__enter__ b
      (StreamContext.mk (Some S1) (device_index S0) None None) w
    = (Ok (StreamContext.mk (Some S1) (device_index S0) (Some S0)
             (Some (active_stream w (device_index S1)))), w1) /\
    _initialized w1 = true /\ in_bad_fork w1 = false /\
    active_stream w1 (device_index S1) = S1 /\
    active_stream w1 (device_index S0) = S0.
Proof.
  intros Hw Hf Hcur HS0.
  pose proof (valid_index_bounds b _ S0_valid) as B0.
  assert (Hpos : 0 < count_of b).
  { unfold count_of. rewrite compiled. lia. }
  assert (R0 : resolves_to b Absent (device_index S0) w).
  { rewrite <- Hcur. apply resolves_absent. exact Hpos. }
  destruct (current_stream_resolved b w Absent (device_index S0)
              Hw Hf compiled S0_valid R0)
    as (wa & Ea & (Ia & Fa & Ka) & (Da & Sa) & _).
  unfold StreamContext.__enter__. cbn [StreamContext.stream StreamContext.idx].
  destruct (device_index S0 =? -1) eqn:E; [apply Z.eqb_eq in E; lia|].
  unfold bind at 1. rewrite Ea, HS0.
  cbn [StreamContext.stream StreamContext.idx StreamContext.src_prev_stream
       StreamContext.dst_prev_stream].
  rewrite streams_on_other_devices by exact other_device.
  cbn [negb]. unfold bind at 1 2.
  rewrite (with_device_valid b wa _ (device_index S1)); auto.
  2: { rewrite Da, Hcur. exact S0_valid. }
  2: { apply get_device_index_handle. exact S1_xpu. }
  set (wb := set_active_device (device_index S1)
               (log_call (C_exchangeDevice (device_index S1)) wa)).
  destruct (current_stream_resolved b wb (Handle (stream_device S1))
              (device_index S1) Ka Fa compiled S1_valid
              (resolves_handle b wb S1 S1_xpu))
    as (wc' & Ec & (Ic & Fc & Kc) & (Dc & Sc) & _).
  rewrite Ec. cbn [fst snd propagate]. unfold ret at 1.
  cbn [StreamContext.stream StreamContext.idx StreamContext.src_prev_stream
       StreamContext.dst_prev_stream].
  set (wc := set_active_device (active_device wa) _).
  destruct (set_stream_ready b wc S1) as (w1 & E1 & I1 & F1 & _ & A1 & O1 & _);
    auto.
  unfold bind at 1. rewrite E1. unfold ret.
  exists w1. change (active_stream wb) with (active_stream wa). rewrite Sa.
  repeat split; auto.
  rewrite O1 by auto. change (active_stream wc) with (active_stream wc').
  rewrite Sc. change (active_stream wb) with (active_stream wa).
  rewrite Sa. exact HS0.
Qed.

(** Leaving it, in a process that is still initialised. *)
Lemma stream_guard_exit (Sd : Stream) (w2 : World) :
  _initialized w2 = true -> in_bad_fork w2 = false ->
  device_index Sd = device_index S1 ->
  let self := StreamContext.mk (Some S1) (device_index S0) (Some S0)
                (Some Sd) in
  exists w3,
    StreamContext.__exit__ b self w2 = (Ok (self, false), w3) /\
    active_stream w3 (device_index S0) = S0 /\
    active_stream w3 (device_index S1) = Sd /\
    native_log w3 = native_log w2 ++
      [C_setStream (stream_id Sd) (device_index Sd) (device_type Sd);
       C_setStream (stream_id S0) (device_index S0) (device_type S0)] /\
    (set_stream_selects_device b = true ->
     active_device w3 = device_index S0).
Proof.
  intros Hi Hf Hd self.
  pose proof (valid_index_bounds b _ S0_valid) as B0.
  unfold StreamContext.__exit__, StreamContext.attr.
  cbn [StreamContext.stream StreamContext.idx StreamContext.src_prev_stream
       StreamContext.dst_prev_stream self].
  destruct (device_index S0 =? -1) eqn:E; [apply Z.eqb_eq in E; lia|].
  unfold bind at 1, ret at 1.
  rewrite streams_on_other_devices by exact other_device.
  cbn [negb]. unfold bind at 1 2, ret at 1.
  destruct (set_stream_ready b w2 Sd) as (wa & Ea & Ia & Fa & La & Aa & _);
    auto.
  { rewrite Hd. exact S1_valid. }
  rewrite Ea.
  destruct (set_stream_ready b wa S0)
    as (w3 & E3 & I3 & F3 & L3 & A3 & O3 & D3); auto.
  unfold bind at 1. rewrite E3. unfold ret.
  exists w3. repeat split; auto.
  - rewrite O3 by exact other_device. rewrite <- Hd. exact Aa.
  - rewrite L3, La, <- app_assoc. reflexivity.
  - intros Hs. rewrite D3, Hs. reflexivity.
Qed.
End StreamGuard.

(** C2: with stream [S0] selected on the active device [D0] and a target
    stream [S1] bound to another device [D1], the block of [with stream(S1)]
    runs with [S1] selected on [D1]; when the statement is left, by return or
    by an exception of the block, the stream selected on [D0] is [S0] and the
    one selected on [D1] is the one selected there before entry, and the exit
    has restored the stream of [D1] first and the stream of [D0] after it.
    The block may be any code built from the operations of the module. *)
Theorem stream_guard_cross_device_round_trip {T} (b : Backend) (w : World)
    (S0 S1 : Stream) (D0 D1 : Z) (block : M T) :
  consistent b w -> in_bad_fork w = false ->
  0 <= D0 < count_of b -> 0 <= D1 < count_of b -> D1 <> D0 ->
  active_device w = D0 -> active_stream w D0 = S0 -> device_index S0 = D0 ->
  device_index S1 = D1 -> device_type S1 = XPU ->
  device_index (active_stream w D1) = D1 ->
  tame b block ->
  exists w1 w3,
    active_stream w1 D1 = S1 /\
    with_stream b (Some S1) block w = (propagate (fst (block w1)), w3) /\
    active_stream w3 D0 = S0 /\
    active_stream w3 D1 = active_stream w D1 /\
    native_log w3 = native_log (snd (block w1)) ++
      [C_setStream (stream_id (active_stream w D1)) D1
                   (device_type (active_stream w D1));
       C_setStream (stream_id S0) D0 (device_type S0)].
Proof.
  intros Hw Hf H0 H1 Hne Hcur HS0 HD0 HD1 Hx Hdst Hblock.
  revert Hcur. subst D0 D1. intros Hcur.
  destruct (count_of_positive b _ H0) as [Hc Hv0].
  destruct (count_of_positive b _ H1) as [_ Hv1].
  assert (Hpos : 0 < count_of b) by lia.
  destruct (stream_guard_init b (Some S1) w Hw Hf Hpos)
    as (w0 & E0 & (I0 & F0 & K0) & (Dw0 & Sw0)).
  destruct (stream_guard_enter b S0 S1 Hv0 Hv1 Hx Hne Hc w0 K0 F0)
    as (w1 & Ee & I1 & F1 & A1 & _).
  { rewrite Dw0. exact Hcur. }
  { rewrite Sw0. exact HS0. }
  rewrite Sw0 in Ee.
  pose proof (Hblock w1) as [Bf _ Bk _].
  destruct (stream_guard_exit b S0 S1 Hv0 Hv1 Hne
              (active_stream w (device_index S1)) (snd (block w1)))
    as (w3 & Ex & A30 & A31 & L3 & _).
  { apply Bf. exact I1. }
  { rewrite Bk. exact F1. }
  { exact Hdst. }
  exists w1, w3. split; [exact A1|]. split; [|split; [exact A30|split]].
  - unfold with_stream, with_, stream. rewrite E0, Hcur, Ee.
    destruct (block w1) as [r w2]. cbn [snd] in Ex. rewrite Ex.
    destruct r; reflexivity.
  - exact A31.
  - rewrite L3, Hdst. reflexivity.
Qed.

Lemma stream_guard_cross_device_round_trip_witness :
  exists w1 w3,
    active_stream w1 1 = mkStream 7 1 XPU /\
    with_stream two_devices (Some (mkStream 7 1 XPU))
      (synchronize two_devices (Index 9)) fresh
    = (propagate (fst (synchronize two_devices (Index 9) w1)), w3) /\
    active_stream w3 0 = mkStream 0 0 XPU /\
    active_stream w3 1 = active_stream fresh 1 /\
    native_log w3 = native_log (snd (synchronize two_devices (Index 9) w1)) ++
      [C_setStream (stream_id (active_stream fresh 1)) 1
                   (device_type (active_stream fresh 1));
       C_setStream (stream_id (mkStream 0 0 XPU)) 0
                   (device_type (mkStream 0 0 XPU))].
Proof.
  apply (stream_guard_cross_device_round_trip two_devices fresh
           (mkStream 0 0 XPU) (mkStream 7 1 XPU) 0 1).
  - apply fresh_consistent; reflexivity.
  - reflexivity.
  - cbn; lia.
  - cbn; lia.
  - lia.
  - reflexivity.
  - reflexivity.
  - reflexivity.
  - reflexivity.
  - reflexivity.
  - reflexivity.
  - apply (tame_run_op two_devices (op_synchronize (Index 9))).
Defined.

(** ** Concurrent callers of the lazy initialisation *)

Lemma thread_step_eq (b : Backend) (pc : Pc) (lk : bool) (w : World) :
  thread_step b pc lk w =
  match pc with
  | AtCheck =>
    Some (if _initialized w && negb (in_bad_fork w)
          then Returned (Ok tt) else AtAcquire, lk, w)
  | AtAcquire => if lk then None else Some (AtRecheck, true, w)
  | AtRecheck =>
    if _initialized w && negb (in_bad_fork w)
    then Some (Returned (Ok tt), false, w)
    else Some (AtForkProbe, lk, w)
  | AtForkProbe =>
    if in_bad_fork w
    then Some (Returned (Raise bad_fork_error), false, w)
    else Some (AtCompiled, lk, w)
  | AtCompiled =>
    if has_xpu b
    then Some (AtNativeInit, lk, w)
    else Some (Returned (Raise not_compiled_error), false, w)
  | AtNativeInit => Some (AtSetFlag, lk, log_call C_init w)
  | AtSetFlag => Some (Returned (Ok tt), false, set_initialized true w)
  | Returned _ => None
  end.
Proof.
  destruct pc; cbn [thread_step]; rewrite ?is_initialized_eq;
    try reflexivity.
  destruct (_initialized w && negb (in_bad_fork w)); reflexivity.
Qed.

(** A thread that runs alone goes through [_lazy_init] in at most seven
    statements, and gives the lock back. *)
Lemma run_alone_is_lazy_init (b : Backend) (w : World) :
  run_alone b 7 AtCheck false w
  = (Returned (fst (_lazy_init b w)), false, snd (_lazy_init b w)).
Proof.
  rewrite lazy_init_eq.
  destruct (_initialized w && negb (in_bad_fork w)) eqn:Hi;
    [|destruct (in_bad_fork w) eqn:Hf; [|destruct (has_xpu b) eqn:Hc]];
    repeat (cbn [run_alone]; rewrite thread_step_eq;
            rewrite ?Hf, ?Hi, ?Hc);
    reflexivity.
Qed.

Section Threads.
Variable b : Backend.

Lemma holders_app (l1 l2 : list Pc) :
  holders (l1 ++ l2) = (holders l1 + holders l2)%nat.
Proof. unfold holders. rewrite filter_app, length_app. reflexivity. Qed.

Lemma holders_cons (pc : Pc) (l : list Pc) :
  holders (pc :: l) = ((if holds_lock pc then 1 else 0) + holders l)%nat.
Proof. unfold holders. cbn. destruct (holds_lock pc); reflexivity. Qed.

Lemma idle_pc_ok (w : World) (pc : Pc) :
  holds_lock pc = false -> pc_ok w pc.
Proof. destruct pc; cbn; intros; (exact I || discriminate). Qed.

Lemma idle_threads (l : list Pc) :
  holders l = 0%nat ->
  existsb at_set_flag l = false /\ forall w, Forall (pc_ok w) l.
Proof.
  induction l as [|pc l IH]; intros H.
  - split; [reflexivity|constructor].
  - rewrite holders_cons in H.
    destruct (holds_lock pc) eqn:Hp; [discriminate|].
    destruct (IH H) as [IH1 IH2]. split.
    + cbn. rewrite IH1. destruct pc; (reflexivity || discriminate).
    + intros w. constructor; [apply idle_pc_ok; assumption|apply IH2].
Qed.

Lemma pc_ok_same_flags (w w' : World) (pc : Pc) :
  _initialized w' = _initialized w -> in_bad_fork w' = in_bad_fork w ->
  pc_ok w pc -> pc_ok w' pc.
Proof. intros Hi Hf. destruct pc; cbn; rewrite ?Hi, ?Hf; auto. Qed.

Lemma start_inv (w0 : World) (n : nat) : inv w0 (start w0 n).
Proof.
  assert (H : holders (repeat AtCheck n) = 0%nat).
  { induction n; [reflexivity|]. cbn [repeat]. rewrite holders_cons.
    exact IHn. }
  destruct (idle_threads _ H) as [H1 H2].
  unfold start. split; cbn [world lock_held threads]; auto.
  rewrite H1. destruct (_initialized w0); cbn; lia.
Qed.

(** The threads other than the one that holds the lock. *)
Lemma others_idle (l1 l2 : list Pc) (pc : Pc) (lk : bool) :
  holders (l1 ++ pc :: l2) = (if lk then 1 else 0)%nat ->
  holds_lock pc = true ->
  lk = true /\ holders l1 = 0%nat /\ holders l2 = 0%nat.
Proof.
  rewrite holders_app, holders_cons. intros H Hp. rewrite Hp in H.
  destruct lk; lia.
Qed.

Lemma holders_replace (l1 l2 : list Pc) (pc pc' : Pc) :
  holds_lock pc' = holds_lock pc ->
  holders (l1 ++ pc' :: l2) = holders (l1 ++ pc :: l2).
Proof.
  intros H. rewrite !holders_app, !holders_cons, H. reflexivity.
Qed.

Lemma existsb_replace (l1 l2 : list Pc) (pc pc' : Pc) :
  at_set_flag pc' = at_set_flag pc ->
  existsb at_set_flag (l1 ++ pc' :: l2)
  = existsb at_set_flag (l1 ++ pc :: l2).
Proof. intros H. rewrite !existsb_app. cbn. rewrite H. reflexivity. Qed.

Lemma Forall_replace (w : World) (l1 l2 : list Pc) (pc pc' : Pc) :
  pc_ok w pc' -> Forall (pc_ok w) (l1 ++ pc :: l2) ->
  Forall (pc_ok w) (l1 ++ pc' :: l2).
Proof.
  intros H F. apply Forall_app in F as [F1 F2].
  apply Forall_app. split; [assumption|].
  inversion F2; subst. constructor; assumption.
Qed.

Lemma Forall_this (w : World) (l1 l2 : list Pc) (pc : Pc) :
  Forall (pc_ok w) (l1 ++ pc :: l2) -> pc_ok w pc.
Proof.
  intros F. apply Forall_app in F as [_ F]. inversion F; assumption.
Qed.

(** A thread that moves without taking or giving the lock and without
    touching the world. *)
Lemma inv_quiet_move (w0 w : World) (lk : bool) (l1 l2 : list Pc)
    (pc pc' : Pc) :
  holds_lock pc' = holds_lock pc -> at_set_flag pc' = at_set_flag pc ->
  pc_ok w pc' ->
  inv w0 (mkProcess w lk (l1 ++ pc :: l2)) ->
  inv w0 (mkProcess w lk (l1 ++ pc' :: l2)).
Proof.
  intros Hh Hs Hk [IL IF IM IP IC]; cbn [world lock_held threads] in *.
  split; cbn [world lock_held threads].
  - rewrite (holders_replace _ _ pc); assumption.
  - assumption.
  - assumption.
  - eapply Forall_replace; eassumption.
  - rewrite (existsb_replace _ _ pc); assumption.
Qed.

(** The thread that holds the lock leaves the [with] block. *)
Lemma inv_release (w0 w : World) (lk : bool) (l1 l2 : list Pc) (pc : Pc)
    (r : Outcome unit) :
  holds_lock pc = true -> at_set_flag pc = false ->
  inv w0 (mkProcess w lk (l1 ++ pc :: l2)) ->
  inv w0 (mkProcess w false (l1 ++ Returned r :: l2)).
Proof.
  intros Hh Hs [IL IF IM IP IC]; cbn [world lock_held threads] in *.
  destruct (others_idle _ _ _ _ IL Hh) as (-> & H1 & H2).
  split; cbn [world lock_held threads].
  - rewrite holders_app, holders_cons, H1, H2. reflexivity.
  - assumption.
  - assumption.
  - eapply Forall_replace; [exact I|eassumption].
  - rewrite (existsb_replace _ _ pc); [assumption|].
    rewrite Hs. reflexivity.
Qed.

Lemma step_inv (w0 : World) (p q : Process) :
  inv w0 p -> step b p q -> inv w0 q.
Proof.
  intros Hp Hs. destruct Hs as [w lk l1 pc l2 pc' lk' w' Ht| |].
  - rewrite thread_step_eq in Ht. destruct pc.
    + (* AtCheck *)
      injection Ht as <- <- <-.
      eapply inv_quiet_move; [| | |exact Hp];
        destruct (_initialized w && negb (in_bad_fork w));
        first [reflexivity|exact I].
    + (* AtAcquire *)
      destruct lk; [discriminate|]. injection Ht as <- <- <-.
      destruct Hp as [IL IF IM IP IC];
        cbn [world lock_held threads] in *.
      split; cbn [world lock_held threads].
      * rewrite holders_app, holders_cons in *.
        cbn [holds_lock] in *. lia.
      * assumption.
      * assumption.
      * eapply Forall_replace; [exact I|eassumption].
      * rewrite (existsb_replace _ _ AtAcquire); [assumption|reflexivity].
    + (* AtRecheck *)
      destruct (_initialized w && negb (in_bad_fork w)) eqn:E;
        injection Ht as <- <- <-.
      * eapply inv_release; [| |exact Hp]; reflexivity.
      * eapply inv_quiet_move; [| | |exact Hp]; try reflexivity.
        cbn. apply andb_false_iff in E as [E|E]; [left; exact E|].
        right. apply negb_false_iff. exact E.
    + (* AtForkProbe *)
      destruct (in_bad_fork w) eqn:E; injection Ht as <- <- <-.
      * eapply inv_release; [| |exact Hp]; reflexivity.
      * eapply inv_quiet_move; [| | |exact Hp]; try reflexivity.
        pose proof (Forall_this _ _ _ _ (inv_pcs _ _ Hp)) as H.
        cbn in H |- *. destruct H; congruence.
    + (* AtCompiled *)
      destruct (has_xpu b); injection Ht as <- <- <-.
      * eapply inv_quiet_move; [| | |exact Hp]; try reflexivity.
        exact (Forall_this _ _ _ _ (inv_pcs _ _ Hp)).
      * eapply inv_release; [| |exact Hp]; reflexivity.
    + (* AtNativeInit *)
      injection Ht as <- <- <-.
      destruct Hp as [IL IF IM IP IC]; cbn [world lock_held threads] in *.
      destruct (others_idle _ _ _ _ IL eq_refl) as (-> & H1 & H2).
      destruct (idle_threads _ H1) as [E1 _].
      destruct (idle_threads _ H2) as [E2 _].
      pose proof (Forall_this _ _ _ _ IP) as Hflag. cbn in Hflag.
      split; cbn [world lock_held threads].
      * rewrite (holders_replace _ _ AtNativeInit); [assumption|reflexivity].
      * assumption.
      * assumption.
      * eapply Forall_replace; [exact Hflag|].
        eapply Forall_impl; [|exact IP].
        intros pc. apply pc_ok_same_flags; reflexivity.
      * rewrite init_calls_log, IC. rewrite !existsb_app. cbn.
        rewrite E1, E2, Hflag, !orb_true_r. cbn.
        destruct (_initialized w0) eqn:E0; [|lia].
        specialize (IM eq_refl). congruence.
    + (* AtSetFlag *)
      injection Ht as <- <- <-.
      destruct Hp as [IL IF IM IP IC]; cbn [world lock_held threads] in *.
      destruct (others_idle _ _ _ _ IL eq_refl) as (-> & H1 & H2).
      destruct (idle_threads _ H1) as [E1 F1].
      destruct (idle_threads _ H2) as [E2 F2].
      split; cbn [world lock_held threads].
      * rewrite holders_app, holders_cons, H1, H2. reflexivity.
      * assumption.
      * reflexivity.
      * apply Forall_app. split; [apply F1|].
        constructor; [exact I|apply F2].
      * change (init_calls (set_initialized true w)) with (init_calls w).
        rewrite IC. rewrite !existsb_app. cbn.
        rewrite !orb_true_r. reflexivity.
    + discriminate.
  - eapply inv_quiet_move; [| | |exact Hp]; first [reflexivity|exact I].
  - destruct Hp as [IL IF IM IP IC]; cbn [world lock_held threads] in *.
    split; cbn [world lock_held threads].
    + rewrite holders_app, IL. cbn. lia.
    + assumption.
    + assumption.
    + apply Forall_app. split; [assumption|]. repeat constructor.
    + rewrite existsb_app. cbn. rewrite !orb_false_r. assumption.
Qed.

Lemma steps_inv (w0 : World) (n : nat) (p : Process) :
  steps b (start w0 n) p -> inv w0 p.
Proof.
  intros H. remember (start w0 n) as p0 eqn:E.
  induction H as [p|p q r H IH Hs].
  - subst p. apply start_inv.
  - eapply step_inv; [apply IH; assumption|exact Hs].
Qed.

(** No statement of any thread clears the flag. *)
Lemma step_flag (p q : Process) :
  step b p q ->
  _initialized (world p) = true -> _initialized (world q) = true.
Proof.
  intros Hs. destruct Hs as [w lk l1 pc l2 pc' lk' w' Ht| |]; cbn; auto.
  rewrite thread_step_eq in Ht.
  destruct pc; try discriminate;
    repeat match type of Ht with
           | (if ?c then _ else _) = _ => destruct c
           end;
    try discriminate; injection Ht as <- <- <-; cbn; auto.
Qed.

(** The executable scheduler produces runs of the step relation. *)
Lemma schedule1_steps (p : Process) (i : nat) :
  steps b p (schedule1 b p i).
Proof.
  unfold schedule1.
  destruct (nth_error (threads p) i) as [pc|] eqn:En; [|apply steps_refl].
  destruct (thread_step b pc (lock_held p) (world p))
    as [[[pc' lk'] w']|] eqn:Et; [|apply steps_refl].
  destruct (nth_error_split _ _ En) as (l1 & l2 & El & Hlen).
  destruct p as [w lk l]; cbn [world lock_held threads] in *. subst l.
  eapply steps_snoc; [apply steps_refl|].
  unfold set_thread. subst i.
  rewrite firstn_app, firstn_all, Nat.sub_diag. cbn [firstn].
  rewrite app_nil_r.
  replace (skipn (S (List.length l1)) (l1 ++ pc :: l2)) with l2.
  - apply step_thread. exact Et.
  - rewrite skipn_app, skipn_all2 by lia.
    replace (S (List.length l1) - List.length l1)%nat with 1%nat by lia.
    reflexivity.
Qed.

Lemma steps_trans (p q r : Process) :
  steps b p q -> steps b q r -> steps b p r.
Proof.
  intros H1 H2. induction H2 as [q|q m r H2 IH Hs]; [assumption|].
  eapply steps_snoc; [apply IH; exact H1|exact Hs].
Qed.

Lemma schedule_steps (order : list nat) (p : Process) :
  steps b p (schedule b order p).
Proof.
  unfold schedule. revert p.
  induction order as [|i order IH]; intros p; cbn.
  - apply steps_refl.
  - eapply steps_trans; [apply schedule1_steps|apply IH].
Qed.
End Threads.

(** Three threads that all find the flag unset before any of them takes the
    lock: the first one initialises the backend, the other two find the flag
    set once they hold the lock. *)
Example three_threads_race :
  let p := schedule two_devices [0; 1; 2; 0; 1; 0; 0; 0; 0; 0; 1; 1; 2; 2]%nat
             (start fresh 3%nat) in
  threads p = [Returned (Ok tt); Returned (Ok tt); Returned (Ok tt)] /\
  lock_held p = false /\
  _initialized (world p) = true /\
  native_log (world p) = [C_init].
Proof. repeat split; reflexivity. Qed.

(** C4: the flag is never cleared and the native initialisation runs at
    most once.  Whatever operations a process performs one after the other,
    a set flag stays set, at most one call of [_xpu_init] is added to those
    made before, and none once the flag is set; the same holds for any
    number of threads that call [_lazy_init] at the same time, in every
    interleaving of their statements, any number of times; and no single
    statement of a thread clears the flag. *)
Theorem initialization_happens_at_most_once :
  (forall b ops w,
      let w' := run_ops b ops w in
      (_initialized w = true -> _initialized w' = true) /\
      (init_calls w' <= init_calls w + 1)%nat /\
      (_initialized w = true -> (init_calls w' <= init_calls w)%nat) /\
      (_initialized w' = false -> (init_calls w' <= init_calls w)%nat)) /\
  (forall b w0 n p,
      steps b (start w0 n) p ->
      (_initialized w0 = true -> _initialized (world p) = true) /\
      (init_calls (world p) <= init_calls w0 + 1)%nat /\
      (_initialized w0 = true -> init_calls (world p) = init_calls w0) /\
      (_initialized (world p) = true -> _initialized w0 = false ->
       init_calls (world p) = (init_calls w0 + 1)%nat)) /\
  (forall b p q,
      step b p q ->
      _initialized (world p) = true -> _initialized (world q) = true).
Proof.
  split; [|split].
  - intros b ops w w'. destruct (tame_run_ops b ops w) as [F C _ _].
    fold w' in F, C. unfold delta in C.
    repeat split.
    + exact F.
    + destruct (_initialized w), (_initialized w'); lia.
    + intros H. rewrite H in C. lia.
    + intros H. rewrite H in C. destruct (_initialized w); lia.
  - intros b w0 n p H. destruct (steps_inv b w0 n p H) as [_ _ IM _ IC].
    repeat split.
    + exact IM.
    + rewrite IC. destruct (_initialized w0);
        [|destruct (_initialized (world p) || existsb at_set_flag (threads p))];
        lia.
    + intros H0. rewrite IC, H0. lia.
    + intros H1 H0. rewrite IC, H0, H1. reflexivity.
  - intros b p q. apply step_flag.
Qed.

Lemma initialization_happens_at_most_once_witness :
  let p := schedule two_devices [0; 1; 2; 0; 1; 0; 0; 0; 0; 0; 1; 1; 2; 2]%nat
             (start fresh 3%nat) in
  (_initialized fresh = true -> _initialized (world p) = true) /\
  (init_calls (world p) <= init_calls fresh + 1)%nat /\
  (_initialized fresh = true -> init_calls (world p) = init_calls fresh) /\
  (_initialized (world p) = true -> _initialized fresh = false ->
   init_calls (world p) = (init_calls fresh + 1)%nat).
Proof.
  apply (proj1 (proj2 initialization_happens_at_most_once)
           two_devices fresh 3%nat).
  apply schedule_steps.
Defined.

(** * Further properties *)

(** ** Relations that every statement keeps *)

Section Respects.
Variable R : World -> World -> Prop.
Hypothesis R_refl : forall w, R w w.
Hypothesis R_trans : forall w1 w2 w3, R w1 w2 -> R w2 w3 -> R w1 w3.

Lemma respects_ret {A} (a : A) : respects R (ret a).
Proof. intros w. apply R_refl. Qed.

Lemma respects_raise {A} (e : Exception) : respects R (@raise A e).
Proof. intros w. apply R_refl. Qed.

Lemma respects_gets {A} (f : World -> A) : respects R (gets f).
Proof. intros w. apply R_refl. Qed.

Lemma respects_bind {A B} (c : M A) (k : A -> M B) :
  respects R c -> (forall a, respects R (k a)) -> respects R (bind c k).
Proof.
  intros Hc Hk w. unfold bind. specialize (Hc w).
  destruct (c w) as [[a|e] w']; cbn in *; [|assumption].
  eapply R_trans; [eassumption|apply Hk].
Qed.

Lemma respects_with {G A} (ctx : M G) (enter : G -> M G)
    (exit : G -> M (G * bool)) (block : M A) :
  respects R ctx -> (forall g, respects R (enter g)) ->
  (forall g, respects R (exit g)) -> respects R block ->
  respects R (with_ ctx enter exit block).
Proof.
  intros Hc He Hx Hb w. unfold with_.
  specialize (Hc w). destruct (ctx w) as [[g0|e] w0]; cbn in *; auto.
  specialize (He g0 w0).
  destruct (enter g0 w0) as [[g|e] w1]; cbn in *; [|eauto].
  specialize (Hb w1). destruct (block w1) as [r w2]; cbn in *.
  specialize (Hx g w2).
  assert (Hall : R w (snd (exit g w2))) by eauto.
  destruct (exit g w2) as [[[g' s]|e] w3]; cbn in *; auto.
  destruct r; [assumption|]. destruct s; assumption.
Qed.
End Respects.

Section RespectsOperations.
Variable R : World -> World -> Prop.
Variable b : Backend.
Hypothesis R_refl : forall w, R w w.
Hypothesis R_trans : forall w1 w2 w3, R w1 w2 -> R w2 w3 -> R w1 w3.
Hypothesis R_lazy_init : respects R (_lazy_init b).
Hypothesis R_device_count : respects R (device_count b).
Hypothesis R_log :
  forall c, is_C_init c = false -> is_C_getDeviceCount c = false ->
            respects R (modify (log_call c)).
Hypothesis R_device : forall d, respects R (modify (set_active_device d)).
Hypothesis R_stream :
  forall d s, respects R (modify (set_active_stream d s)).

(** Break a computation into its statements. *)
Ltac respects_tac :=
  repeat first
    [ progress intros
    | assumption
    | apply respects_ret; assumption
    | apply respects_raise; assumption
    | apply respects_gets; assumption
    | apply R_log; reflexivity
    | apply R_device
    | apply R_stream
    | match goal with
      | |- respects _ (bind _ _) => apply (respects_bind R R_trans)
      | |- respects _ (if ?x then _ else _) => destruct x
      | |- respects _ (match ?x with _ => _ end) => destruct x
      | |- respects _ (let '(_, _) := ?x in _) => destruct x
      end ].

Lemma respects_get_device_index (d : DeviceRef) (optional : bool) :
  respects R (_get_device_index b d optional).
Proof.
  unfold _get_device_index, is_available, current_device, _xpu_getDevice.
  respects_tac.
Qed.

Lemma respects_int_arg (v : option Z) : respects R (int_arg v).
Proof. unfold int_arg. respects_tac. Qed.

Lemma respects_exchange (to : Z) : respects R (exchange b to).
Proof. unfold exchange. respects_tac. Qed.

Lemma respects_get_device_properties (d : DeviceRef) :
  respects R (get_device_properties b d).
Proof.
  unfold get_device_properties, _get_device_properties. respects_tac.
  all: first [apply respects_get_device_index|apply respects_int_arg].
Qed.

Lemma respects_current_stream (d : DeviceRef) :
  respects R (current_stream b d).
Proof.
  unfold current_stream, _xpu_getCurrentStream. respects_tac.
  all: first [apply respects_get_device_index|apply respects_int_arg].
Qed.

Lemma respects_set_stream (s : option Stream) : respects R (set_stream b s).
Proof.
  unfold set_stream, _set_stream_by_id, _xpu_setStream. respects_tac.
Qed.

(** The operations that only ask. *)
Lemma respects_query (op : Op) :
  is_query op = true -> respects R (run_op b op).
Proof.
  intros Hq. destruct op; try discriminate Hq;
    unfold run_op, ignore, init, get_device_name, get_device_capability,
      current_device, synchronize, is_available, is_bf16_supported,
      is_initialized, _xpu_getDevice, _xpu_synchronize, _is_in_bad_fork;
    respects_tac;
    auto using respects_get_device_index, respects_get_device_properties,
      respects_current_stream, respects_int_arg.
Qed.

Lemma respects_run_op (op : Op) : respects R (run_op b op).
Proof.
  destruct (is_query op) eqn:Hq; [apply respects_query; exact Hq|].
  destruct op; try discriminate Hq; unfold run_op.
  - unfold set_device, _xpu_setDevice. respects_tac.
    all: first [apply respects_get_device_index|apply respects_int_arg].
  - apply respects_set_stream.
Qed.

Lemma respects_run_ops (ops : list Op) (w : World) :
  R w (run_ops b ops w).
Proof.
  revert w. induction ops as [|op ops IH]; intros w; cbn.
  - apply R_refl.
  - eapply R_trans; [apply respects_run_op|apply IH].
Qed.

Lemma respects_with_device {A} (d : DeviceRef) (block : M A) :
  respects R block -> respects R (with_device b d block).
Proof.
  intros Hb. unfold with_device. apply respects_with; auto.
  - unfold device.__init__. respects_tac. apply respects_get_device_index.
  - intros g. unfold device.__enter__, _exchange_device,
      _xpu_exchangeDevice. respects_tac.
    all: first [apply respects_exchange|apply respects_int_arg].
  - intros g. unfold device.__exit__, _maybe_exchange_device,
      _xpu_maybeExchangeDevice. respects_tac.
    all: first [apply respects_exchange|apply respects_int_arg].
Qed.
End RespectsOperations.

(** ** Operations that only ask *)

Lemma same_selection_lazy_init (b : Backend) :
  respects same_selection (_lazy_init b).
Proof.
  intros w. rewrite lazy_init_eq.
  destruct (_initialized w && negb (in_bad_fork w));
    [|destruct (in_bad_fork w); [|destruct (has_xpu b)]];
    split; reflexivity.
Qed.

Lemma same_selection_device_count (b : Backend) :
  respects same_selection (device_count b).
Proof.
  intros w. rewrite device_count_eq.
  destruct (device_count_cache w); [|destruct (has_xpu b)];
    split; reflexivity.
Qed.

(** X1: every operation other than [set_device] and [set_stream] leaves the
    active device and the stream selected on every device as they were,
    whether it returns or raises. *)
Theorem queries_keep_selection (b : Backend) (op : Op) (w : World) :
  is_query op = true ->
  active_device (snd (run_op b op w)) = active_device w /\
  active_stream (snd (run_op b op w)) = active_stream w.
Proof.
  intros Hq.
  apply (respects_query same_selection b same_selection_refl
           same_selection_trans (same_selection_lazy_init b)
           (same_selection_device_count b)); [|exact Hq].
  intros c _ _ w'. split; reflexivity.
Qed.

Lemma queries_keep_selection_witness :
  active_device
    (snd (run_op two_devices (op_current_stream (Index 1)) fresh))
  = active_device fresh /\
  active_stream
    (snd (run_op two_devices (op_current_stream (Index 1)) fresh))
  = active_stream fresh.
Proof.
  apply (queries_keep_selection two_devices (op_current_stream (Index 1))
           fresh).
  reflexivity.
Defined.

(** ** The cache of the device count *)

Lemma device_count_queries_log (c : NativeCall) (w : World) :
  device_count_queries (log_call c w) =
  (device_count_queries w + if is_C_getDeviceCount c then 1 else 0)%nat.
Proof.
  unfold device_count_queries, log_call; cbn.
  rewrite filter_app, length_app; cbn.
  destruct (is_C_getDeviceCount c); reflexivity.
Qed.

Lemma cache_once_frame (w w' : World) :
  device_count_cache w' = device_count_cache w ->
  device_count_queries w' = device_count_queries w ->
  cache_once w w'.
Proof.
  intros Hc Hq. unfold cache_once. rewrite Hc, Hq.
  destruct (device_count_cache w); [split; reflexivity|lia].
Qed.

Lemma cache_once_refl (w : World) : cache_once w w.
Proof. apply cache_once_frame; reflexivity. Qed.

Lemma cache_once_trans (w1 w2 w3 : World) :
  cache_once w1 w2 -> cache_once w2 w3 -> cache_once w1 w3.
Proof.
  unfold cache_once. intros H1 H2.
  destruct (device_count_cache w1) as [v|].
  - destruct H1 as [E1 Q1]. rewrite E1 in H2. destruct H2 as [E2 Q2].
    split; congruence.
  - destruct (device_count_cache w2) as [v|].
    + destruct H2 as [E2 Q2]. rewrite E2. lia.
    + destruct (device_count_cache w3); lia.
Qed.

Lemma cache_once_lazy_init (b : Backend) :
  respects cache_once (_lazy_init b).
Proof.
  intros w. rewrite lazy_init_eq.
  destruct (_initialized w && negb (in_bad_fork w));
    [|destruct (in_bad_fork w); [|destruct (has_xpu b)]];
    apply cache_once_frame; try reflexivity.
  cbn [snd].
  change (device_count_queries (set_initialized true (log_call C_init w)))
    with (device_count_queries (log_call C_init w)).
  rewrite device_count_queries_log. cbn. lia.
Qed.

Lemma cache_once_device_count (b : Backend) :
  respects cache_once (device_count b).
Proof.
  intros w. rewrite device_count_eq. unfold cache_once.
  destruct (device_count_cache w) eqn:E.
  - cbn. rewrite E. split; reflexivity.
  - destruct (has_xpu b); cbn [snd].
    + change (device_count_queries (set_device_count_cache ?v ?x))
        with (device_count_queries x).
      rewrite device_count_queries_log. cbn. lia.
    + cbn. change (device_count_queries (set_device_count_cache ?v ?x))
        with (device_count_queries x). lia.
Qed.

(** X2: [torch._C._xpu_getDeviceCount] runs at most once, whatever
    operations a process performs one after the other: once the cache of
    [device_count] holds a value, that value stays and no operation queries
    the runtime again; while it is empty, no query has been added. *)
Theorem device_count_queried_at_most_once (b : Backend) (ops : list Op)
    (w : World) :
  let w' := run_ops b ops w in
  (device_count_queries w' <= device_count_queries w + 1)%nat /\
  (forall v, device_count_cache w = Some v ->
             device_count_cache w' = Some v /\
             device_count_queries w' = device_count_queries w) /\
  (device_count_cache w' = None ->
   (device_count_queries w' <= device_count_queries w)%nat).
Proof.
  intros w'.
  assert (H : cache_once w w').
  { apply (respects_run_ops cache_once b cache_once_refl cache_once_trans
             (cache_once_lazy_init b) (cache_once_device_count b)).
    - intros c _ Hc x. apply cache_once_frame; [reflexivity|].
      cbn. rewrite device_count_queries_log, Hc. lia.
    - intros d x. apply cache_once_frame; reflexivity.
    - intros d s x. apply cache_once_frame; reflexivity. }
  unfold cache_once in H. split; [|split].
  - destruct (device_count_cache w); [destruct H; lia|].
    destruct (device_count_cache w'); lia.
  - intros v Hv. rewrite Hv in H. exact H.
  - intros Hn. rewrite Hn in H.
    destruct (device_count_cache w); [destruct H; lia|lia].
Qed.

Lemma device_count_queried_at_most_once_witness :
  let w := snd (device_count two_devices fresh) in
  let w' := run_ops two_devices
              [op_is_available; op_get_device_properties (Index 0);
               op_device_count] w in
  device_count_cache w' = Some 2 /\
  device_count_queries w' = device_count_queries w.
Proof.
  apply (proj1 (proj2 (device_count_queried_at_most_once two_devices
                         [op_is_available;
                          op_get_device_properties (Index 0);
                          op_device_count]
                         (snd (device_count two_devices fresh))))).
  reflexivity.
Defined.

(** ** Initialising twice, and failing to *)

(** X4: [init()] does nothing when the state is already initialised, and
    nothing when it fails: if it returns, [is_initialized()] returns true
    afterwards and a second [init()] returns without touching the state; if
    it raises, it raises the bad-fork error or the not-compiled assertion and
    the state is exactly as before, so that a second [init()] raises the
    same. *)
Theorem init_idempotent_or_untouched (b : Backend) (w : World) :
  match init b w with
  | (Ok _, w1) =>
    is_initialized w1 = (Ok true, w1) /\ init b w1 = (Ok tt, w1)
  | (Raise e, w1) =>
    w1 = w /\ (e = bad_fork_error \/ e = not_compiled_error) /\
    fst (is_initialized w1) = Ok false /\
    init b w1 = (Raise e, w1)
  end.
Proof.
  unfold init. rewrite lazy_init_eq.
  destruct (_initialized w && negb (in_bad_fork w)) eqn:Hi.
  - rewrite is_initialized_eq, lazy_init_eq, Hi. auto.
  - destruct (in_bad_fork w) eqn:Hf.
    + rewrite is_initialized_eq, lazy_init_eq, Hf, Hi. cbn. auto.
    + destruct (has_xpu b) eqn:Hc.
      * rewrite is_initialized_eq, lazy_init_eq. cbn. rewrite Hf. auto.
      * rewrite is_initialized_eq, lazy_init_eq, Hf, Hi, Hc. cbn. auto.
Qed.

(** ** The stream guard where it has nothing to do *)

Lemma stream_guard_idle {T} (b : Backend) (g : StreamContext.t)
    (block : M T) (w : World) :
  StreamContext.stream g = None \/ StreamContext.idx g = -1 ->
  with_ (ret g) (StreamContext.__enter__ b) (StreamContext.__exit__ b)
        block w
  = (propagate (fst (block w)), snd (block w)).
Proof.
  intros H. unfold with_, ret at 1.
  assert (He : StreamContext.__enter__ b g = ret g).
  { unfold StreamContext.__enter__.
    destruct (StreamContext.stream g); [|reflexivity].
    destruct H as [H|H]; [discriminate|]. rewrite H. reflexivity. }
  assert (Hx : StreamContext.__exit__ b g = ret (g, false)).
  { unfold StreamContext.__exit__.
    destruct (StreamContext.stream g); [|reflexivity].
    destruct H as [H|H]; [discriminate|]. rewrite H. reflexivity. }
  rewrite He. unfold ret at 1. destruct (block w) as [r w2].
  rewrite Hx. unfold ret. destruct r; reflexivity.
Qed.

(** The guard built in a process without devices: the resolver asks
    [is_available()], which fills the cache of [device_count], and finds no
    device. *)
Lemma stream_guard_init_without_devices (b : Backend) (s : option Stream)
    (w : World) :
  consistent b w -> count_of b <= 0 ->
  StreamContext.__init__ b s w
  = (Ok (StreamContext.mk s (-1) None None), snd (device_count b w)).
Proof.
  intros Hw Hn.
  unfold StreamContext.__init__, _get_device_index, is_available,
    bind at 1 2 3.
  destruct (device_count_consistent b w Hw) as (w0 & E & _). rewrite E.
  unfold ret at 1.
  destruct (count_of b >? 0) eqn:G; [apply Z.gtb_lt in G; lia|].
  reflexivity.
Qed.

(** The guard built in a bad fork of a process with devices: the resolver
    asks [is_available()], then [current_device()], whose lazy
    initialisation raises. *)
Lemma stream_guard_init_bad_fork (b : Backend) (s : option Stream)
    (w : World) :
  in_bad_fork w = true -> consistent b w -> 0 < count_of b ->
  StreamContext.__init__ b s w
  = (Raise bad_fork_error, snd (device_count b w)).
Proof.
  intros Hf Hw Hn.
  unfold StreamContext.__init__, _get_device_index, is_available,
    bind at 1 2 3.
  destruct (device_count_consistent b w Hw) as (w0 & E & _ & F0 & _).
  rewrite E. unfold ret at 1.
  destruct (count_of b >? 0) eqn:G;
    [|rewrite Z.gtb_ltb in G; apply Z.ltb_ge in G; lia].
  unfold current_device, bind.
  rewrite lazy_init_bad_fork; [reflexivity|].
  rewrite F0. exact Hf.
Qed.

(** X5: the stream guard is a no-op when its stream is [None] or when no
    device was found when it was built: [__enter__] and [__exit__] of such a
    guard do nothing, so that the statement runs its block in the state it
    was reached in, returns or raises what the block does and leaves the
    state the block left.  In [with stream(None)] the only effects besides
    the block's are those of building the guard, which resolves the current
    device: the block runs in the state the constructor left, and is not run
    when the constructor raises.  In a process without devices building the
    guard does nothing but ask [device_count()], and [with stream(s)] runs
    just its block in the state that query left. *)
Theorem stream_guard_noop {T} (b : Backend) (block : M T) (w : World) :
  (forall g,
      StreamContext.stream g = None \/ StreamContext.idx g = -1 ->
      with_ (ret g) (StreamContext.__enter__ b) (StreamContext.__exit__ b)
            block w
      = (propagate (fst (block w)), snd (block w))) /\
  with_stream b None block w
  = match StreamContext.__init__ b None w with
    | (Ok _, w0) => (propagate (fst (block w0)), snd (block w0))
    | (Raise e, w0) => (Raise e, w0)
    end /\
  (forall s,
      consistent b w -> count_of b <= 0 ->
      let w0 := snd (device_count b w) in
      with_stream b s block w = (propagate (fst (block w0)), snd (block w0))).
Proof.
  assert (G : forall s g w0, StreamContext.__init__ b s w = (Ok g, w0) ->
              StreamContext.stream g = None \/ StreamContext.idx g = -1 ->
              with_stream b s block w
              = (propagate (fst (block w0)), snd (block w0))).
  { intros s g w0 Hi Hs.
    rewrite <- (stream_guard_idle b g block w0) by exact Hs.
    unfold with_stream, with_, stream. rewrite Hi. reflexivity. }
  split; [|split].
  - intros g. apply stream_guard_idle.
  - destruct (StreamContext.__init__ b None w) as [[g|e] w0] eqn:Hi.
    + apply (G None g w0 Hi). left.
      unfold StreamContext.__init__, bind in Hi.
      destruct (_get_device_index b Absent true w) as [[i|e] w1];
        inversion Hi; reflexivity.
    + unfold with_stream, with_, stream. rewrite Hi. reflexivity.
  - intros s Hw Hn w0.
    apply (G s _ _ (stream_guard_init_without_devices b s w Hw Hn)).
    right; reflexivity.
Qed.

Lemma stream_guard_noop_witness :
  let w0 := snd (device_count no_devices fresh) in
  with_stream no_devices (Some (mkStream 7 0 XPU))
    (raise (A := unit) (ValueError "boom")) fresh
  = (propagate (fst (raise (A := unit) (ValueError "boom") w0)),
     snd (raise (A := unit) (ValueError "boom") w0)).
Proof.
  apply (proj2 (proj2 (stream_guard_noop no_devices
                         (raise (A := unit) (ValueError "boom")) fresh))).
  - apply fresh_consistent; reflexivity.
  - cbn; lia.
Defined.

(** X6: in a bad fork of a process with devices, [with stream(s)] raises the
    re-initialisation error while the guard is built, from the lazy
    initialisation of [current_device()]: the block is not run, neither
    [__enter__] nor [__exit__] is called, and the state is the one left by
    the [device_count()] query of [is_available()]. *)
Theorem stream_guard_bad_fork {T} (b : Backend) (s : Stream) (block : M T)
    (w : World) :
  in_bad_fork w = true -> consistent b w -> 0 < count_of b ->
  with_stream b (Some s) block w
  = (Raise bad_fork_error, snd (device_count b w)) /\
  StreamContext.__init__ b (Some s) w
  = (Raise bad_fork_error, snd (device_count b w)).
Proof.
  intros Hf Hw Hn.
  pose proof (stream_guard_init_bad_fork b (Some s) w Hf Hw Hn) as Hi.
  split; [|exact Hi].
  unfold with_stream, with_, stream. rewrite Hi. reflexivity.
Qed.

Lemma stream_guard_bad_fork_witness :
  with_stream two_devices (Some (mkStream 7 1 XPU)) (ret tt) forked_child
  = (Raise bad_fork_error, snd (device_count two_devices forked_child)) /\
  StreamContext.__init__ two_devices (Some (mkStream 7 1 XPU)) forked_child
  = (Raise bad_fork_error, snd (device_count two_devices forked_child)).
Proof.
  apply (stream_guard_bad_fork two_devices (mkStream 7 1 XPU) (ret tt)
           forked_child).
  - reflexivity.
  - split; [reflexivity|intros n H; discriminate H].
  - cbn; lia.
Defined.

(** ** Without the backend *)

(** X7: without the backend both device guards fail on entry with
    [NotImplementedError], for every integer index, the negative ones
    included, without running their block or changing the state; the
    operations that start with the lazy initialisation fail with the
    not-compiled [AssertionError] instead, unless the process is in a bad
    fork. *)
Theorem without_backend_errors (b : Backend) (w : World) :
  has_xpu b = false ->
  (forall T i (block : M T),
      with_device b (Index i) block w = (Raise without_xpu, w) /\
      with_DeviceGuard b i block w = (Raise without_xpu, w)) /\
  (forall op,
      consistent b w -> in_bad_fork w = false ->
      triggers_lazy_init op = true ->
      run_op b op w = (Raise not_compiled_error, w)).
Proof.
  intros Hc. split.
  - intros T i block. split.
    + unfold with_device, with_, device.__init__, _get_device_index,
        bind at 1, ret at 1 2.
      unfold device.__enter__, _exchange_device. rewrite Hc. reflexivity.
    + unfold with_DeviceGuard, with_, _DeviceGuard.__init__, ret at 1.
      unfold _DeviceGuard.__enter__, _exchange_device. rewrite Hc.
      reflexivity.
  - intros op [Hi _] Hf Ht. apply run_op_lazy_init_raises; [exact Ht|].
    rewrite lazy_init_eq, Hf, Hc.
    destruct (_initialized w); [|reflexivity].
    specialize (Hi eq_refl). congruence.
Qed.

Lemma without_backend_errors_witness :
  (with_device no_backend (Index (-1)) (ret tt) fresh
   = (Raise without_xpu, fresh) /\
   with_DeviceGuard no_backend (-1) (ret tt) fresh
   = (Raise without_xpu, fresh)) /\
  run_op no_backend (op_synchronize (Index 0)) fresh
  = (Raise not_compiled_error, fresh).
Proof.
  destruct (without_backend_errors no_backend fresh eq_refl) as [H1 H2].
  split; [apply H1|].
  apply H2; [apply fresh_consistent; reflexivity|reflexivity|reflexivity].
Defined.

(** ** The sibling guards *)

(** X8: [_DeviceGuard(i)] and [device(i)] are the same guard for an integer
    index: around any block and from any state the two [with] statements
    return or raise the same and leave the same state. *)
Theorem DeviceGuard_is_device {T} (b : Backend) (i : Z) (block : M T)
    (w : World) :
  with_DeviceGuard b i block w = with_device b (Index i) block w.
Proof.
  unfold with_DeviceGuard, with_device, with_, _DeviceGuard.__init__,
    device.__init__, _get_device_index, bind at 1, ret at 1 2 3.
  unfold _DeviceGuard.__enter__, device.__enter__, bind at 1 2.
  cbn [_DeviceGuard.idx device.idx].
  destruct (_exchange_device b (Some i) w) as [[p|e] w1]; [|reflexivity].
  unfold ret at 1 2. destruct (block w1) as [r w2].
  unfold _DeviceGuard.__exit__, device.__exit__, bind at 1 2.
  cbn [_DeviceGuard.prev_idx device.prev_idx].
  destruct (_maybe_exchange_device b (Some p) w2) as [[q|e] w3];
    [|reflexivity].
  unfold ret. destruct r; reflexivity.
Qed.

(** X9: [device_of(obj)] is [device(obj.get_device())] for an object on an
    XPU, and a guard that changes nothing for any other object: with the
    backend compiled in, the block then runs with the active device and the
    streams of the state the statement was reached in, and the exit leaves
    the active device the block left. *)
Theorem device_of_guard {T} (b : Backend) (obj : TensorLike) (block : M T)
    (w : World) :
  (is_xpu obj = true ->
   with_device_of b obj block w
   = with_device b (Index (get_device obj)) block w) /\
  (is_xpu obj = false -> has_xpu b = true ->
   exists w1 w3,
     active_device w1 = active_device w /\
     active_stream w1 = active_stream w /\
     with_device_of b obj block w = (propagate (fst (block w1)), w3) /\
     active_device w3 = active_device (snd (block w1)) /\
     active_stream w3 = active_stream (snd (block w1))).
Proof.
  split.
  - intros Hx. unfold with_device_of, with_device, device_of.__init__.
    rewrite Hx. reflexivity.
  - intros Hx Hc.
    assert (E : with_device_of b obj block w
                = with_device b (Index (-1)) block w).
    { unfold with_device_of, with_device, device_of.__init__.
      rewrite Hx. reflexivity. }
    rewrite E. do 2 eexists. split; [|split; [|split; [|split]]].
    3: { apply with_device_negative; [exact Hc|lia]. }
    all: reflexivity.
Qed.

Lemma device_of_guard_witness :
  (with_device_of two_devices (mkTensorLike true 1) (ret tt) fresh
   = with_device two_devices (Index 1) (ret tt) fresh) /\
  (exists w1 w3,
     active_device w1 = active_device fresh /\
     active_stream w1 = active_stream fresh /\
     with_device_of two_devices (mkTensorLike false 1) (ret tt) fresh
     = (propagate (fst (ret tt w1)), w3) /\
     active_device w3 = active_device (snd (ret tt w1)) /\
     active_stream w3 = active_stream (snd (ret tt w1))).
Proof.
  split.
  - apply (proj1 (device_of_guard two_devices (mkTensorLike true 1) (ret tt)
                    fresh)). reflexivity.
  - apply (proj2 (device_of_guard two_devices (mkTensorLike false 1) (ret tt)
                    fresh)); reflexivity.
Defined.

(** ** Selecting and asking *)

(** Once [_lazy_init] has returned, calling it again changes nothing. *)
Lemma lazy_init_absorb {A} (b : Backend) (w wi : World) (k : unit -> M A) :
  _lazy_init b w = (Ok tt, wi) ->
  bind (_lazy_init b) k w = k tt wi /\
  _lazy_init b wi = (Ok tt, wi).
Proof.
  intros E. split; [unfold bind; rewrite E; reflexivity|].
  rewrite lazy_init_eq in E. rewrite lazy_init_eq.
  destruct (_initialized w && negb (in_bad_fork w)) eqn:Hi.
  - injection E as <-. rewrite Hi. reflexivity.
  - destruct (in_bad_fork w) eqn:Hf; [discriminate E|].
    destruct (has_xpu b); [|discriminate E].
    injection E as <-. cbn. rewrite Hf. reflexivity.
Qed.

Lemma current_device_ok (b : Backend) (w : World) :
  has_xpu b = true -> in_bad_fork w = false ->
  exists w', current_device b w = (Ok (active_device w), w') /\
             in_bad_fork w' = false /\ active_device w' = active_device w.
Proof.
  intros Hc Hf.
  destruct (lazy_init_ok b w Hf Hc) as (wi & E & _ & Fi & _ & Di & _).
  unfold current_device, bind. rewrite E.
  unfold _xpu_getDevice; unfold_monad. cbn.
  eexists. rewrite Di. repeat split; assumption.
Qed.

(** X10: inside [with device(A)] the current device is [A], and after the
    statement it is again the device [B] that was current before: with both
    in [0, device_count()) and outside a bad fork, [current_device()] as the
    block returns [A], and [current_device()] called after the statement
    returns [B]. *)
Theorem current_device_inside_guard (b : Backend) (w : World) (A B : Z) :
  consistent b w -> in_bad_fork w = false ->
  0 <= A < count_of b -> 0 <= B < count_of b -> active_device w = B ->
  exists w3 w4,
    with_device b (Index A) (current_device b) w = (Ok (Some A), w3) /\
    current_device b w3 = (Ok B, w4).
Proof.
  intros Hw Hf HA HB Hcur.
  destruct (count_of_positive b A HA) as [Hc HvA].
  destruct (count_of_positive b B HB) as [_ HvB].
  rewrite <- Hcur in HvB.
  rewrite (with_device_valid b w (Index A) A (current_device b) Hc HvA HvB
             eq_refl).
  set (w1 := set_active_device A (log_call (C_exchangeDevice A) w)).
  destruct (current_device_ok b w1 Hc Hf) as (w2 & E2 & F2 & _).
  rewrite E2. cbn [fst snd propagate].
  set (w3 := set_active_device (active_device w) _).
  destruct (current_device_ok b w3 Hc F2) as (w4 & E4 & _).
  exists w3, w4. split; [reflexivity|].
  rewrite E4. cbn. rewrite Hcur. reflexivity.
Qed.

Lemma current_device_inside_guard_witness :
  exists w3 w4,
    with_device two_devices (Index 1) (current_device two_devices) fresh
    = (Ok (Some 1), w3) /\
    current_device two_devices w3 = (Ok 0, w4).
Proof.
  apply (current_device_inside_guard two_devices fresh 1 0).
  - apply fresh_consistent; reflexivity.
  - reflexivity.
  - cbn; lia.
  - cbn; lia.
  - reflexivity.
Defined.

(** X11: [set_device] with a non-negative index hands that index to the
    runtime as it is, in one call of [_xpu_setDevice] made right after the
    lazy initialisation, without asking for the device count; when the index
    names a device, that device is the one [current_device()] returns next,
    and the streams selected on the devices are as before. *)
Theorem set_device_selects (b : Backend) (w : World) (i : Z) :
  has_xpu b = true -> in_bad_fork w = false -> 0 <= i ->
  (native_log (snd (set_device b (Index i) w))
   = native_log (snd (init b w)) ++ [C_setDevice i] /\
   device_count_cache (snd (set_device b (Index i) w))
   = device_count_cache w) /\
  (i < count_of b ->
   exists w1 w2,
     set_device b (Index i) w = (Ok tt, w1) /\
     current_device b w1 = (Ok i, w2) /\
     active_stream w1 = active_stream w).
Proof.
  intros Hc Hf Hi.
  destruct (lazy_init_ok b w Hf Hc) as (wi & E & _ & Fi & Ki & _ & Si & _).
  assert (Hs : set_device b (Index i) w = _xpu_setDevice b i wi).
  { unfold set_device. rewrite (proj1 (lazy_init_absorb b w wi _ E)).
    cbv [_get_device_index int_arg bind ret].
    destruct (i >=? 0) eqn:G; [reflexivity|].
    rewrite Z.geb_leb in G. apply Z.leb_gt in G. lia. }
  rewrite Hs. unfold init. rewrite E. cbn [snd]. split.
  - unfold _xpu_setDevice; unfold_monad.
    destruct (valid_index b i); cbn; auto.
  - intros Hlt.
    destruct (count_of_positive b i (conj Hi Hlt)) as [_ Hv].
    unfold _xpu_setDevice; unfold_monad. rewrite Hv.
    set (w1 := set_active_device i _).
    destruct (current_device_ok b w1 Hc Fi) as (w2 & E2 & _).
    exists w1, w2. repeat split; assumption.
Qed.

Lemma set_device_selects_witness :
  (native_log (snd (set_device two_devices (Index 1) fresh))
   = native_log (snd (init two_devices fresh)) ++ [C_setDevice 1] /\
   device_count_cache (snd (set_device two_devices (Index 1) fresh))
   = device_count_cache fresh) /\
  exists w1 w2,
    set_device two_devices (Index 1) fresh = (Ok tt, w1) /\
    current_device two_devices w1 = (Ok 1, w2) /\
    active_stream w1 = active_stream fresh.
Proof.
  destruct (set_device_selects two_devices fresh 1) as [H1 H2];
    [reflexivity|reflexivity|lia|].
  split; [exact H1|]. apply H2. cbn; lia.
Defined.

(** [current_stream] for an integer index, once the state is initialised. *)
Lemma current_stream_index (b : Backend) (w : World) (i : Z) :
  _initialized w = true -> in_bad_fork w = false ->
  valid_index b i = true ->
  current_stream b (Index i) w
  = (Ok (active_stream w i), log_call (C_getCurrentStream i) w).
Proof.
  intros Hi Hf Hv. pose proof (valid_index_bounds b i Hv) as Hb.
  unfold current_stream, bind at 1.
  rewrite (lazy_init_again b w Hi Hf).
  unfold _get_device_index, int_arg, bind at 1, ret at 1.
  unfold bind at 1, ret at 1.
  unfold _xpu_getCurrentStream; unfold_monad.
  destruct (i <? 0) eqn:E; [apply Z.ltb_lt in E; lia|].
  rewrite Hv. cbn. rewrite stream_eta. reflexivity.
Qed.

(** X12: a stream selected with [set_stream] is the one [current_stream]
    returns for its device: outside a bad fork and for a stream bound to a
    device in range, [set_stream(s)] returns, [current_stream] of the device
    of [s] then returns [s], with the same id, device index and device type,
    and the streams selected on the other devices are as before. *)
Theorem set_stream_then_current_stream (b : Backend) (w : World)
    (s : Stream) :
  in_bad_fork w = false -> 0 <= device_index s < count_of b ->
  exists w1 w2,
    set_stream b (Some s) w = (Ok tt, w1) /\
    current_stream b (Index (device_index s)) w1 = (Ok s, w2) /\
    (forall d, d <> device_index s ->
               active_stream w1 d = active_stream w d).
Proof.
  intros Hf Hr. destruct (count_of_positive b _ Hr) as [Hc Hv].
  destruct (lazy_init_ok b w Hf Hc) as (wi & E & Ii & Fi & _ & _ & Si & _).
  destruct (set_stream_ready b wi s Ii Fi Hv)
    as (w1 & E1 & I1 & F1 & _ & A1 & O1 & _).
  assert (Hs : set_stream b (Some s) w = set_stream b (Some s) wi).
  { unfold set_stream.
    rewrite (proj1 (lazy_init_absorb b w wi _ E)).
    rewrite (proj1 (lazy_init_absorb b wi wi _
                      (proj2 (lazy_init_absorb b w wi ret E)))).
    reflexivity. }
  exists w1, (log_call (C_getCurrentStream (device_index s)) w1).
  split; [rewrite Hs; exact E1|]. split.
  - rewrite (current_stream_index b w1 (device_index s) I1 F1 Hv).
    rewrite A1. reflexivity.
  - intros d Hd. rewrite O1 by exact Hd. rewrite Si. reflexivity.
Qed.

Lemma set_stream_then_current_stream_witness :
  exists w1 w2,
    set_stream two_devices (Some (mkStream 7 1 XPU)) fresh = (Ok tt, w1) /\
    current_stream two_devices (Index (device_index (mkStream 7 1 XPU))) w1
    = (Ok (mkStream 7 1 XPU), w2) /\
    (forall d, d <> device_index (mkStream 7 1 XPU) ->
               active_stream w1 d = active_stream fresh d).
Proof.
  apply (set_stream_then_current_stream two_devices fresh
           (mkStream 7 1 XPU)).
  - reflexivity.
  - cbn; lia.
Defined.

(** ** The stream guard on one device *)

Lemma streams_on_same_device (s0 s1 : Stream) :
  device_index s1 = device_index s0 -> device_type s1 = device_type s0 ->
  TorchDevice_eqb (stream_device s0) (stream_device s1) = true.
Proof.
  intros Hi Ht. unfold TorchDevice_eqb, stream_device. cbn.
  rewrite Hi, Ht, Z.eqb_refl. destruct (device_type s0); reflexivity.
Qed.

(** The run of the guard on one device, with what the later statements
    need of the two states. *)
Lemma stream_guard_same_device_run {T} (b : Backend) (w : World)
    (S0 S1 : Stream) (block : M T) :
  consistent b w -> in_bad_fork w = false ->
  0 <= device_index S0 < count_of b ->
  active_device w = device_index S0 ->
  active_stream w (device_index S0) = S0 ->
  device_index S1 = device_index S0 ->
  device_type S1 = device_type S0 ->
  tame b block ->
  exists w1 w3,
    (active_stream w1 (device_index S0) = S1 /\
     (exists l, native_log w1 = l ++
        [C_getCurrentStream (device_index S0);
         C_setStream (stream_id S1) (device_index S0) (device_type S1)]) /\
     _initialized w1 = true /\ in_bad_fork w1 = false /\
     consistent b w1 /\ active_device w1 = device_index S0) /\
    with_stream b (Some S1) block w = (propagate (fst (block w1)), w3) /\
    (active_stream w3 (device_index S0) = S0 /\
     native_log w3 = native_log (snd (block w1)) ++
       [C_setStream (stream_id S0) (device_index S0) (device_type S0)] /\
     (forall d, d <> device_index S0 ->
                active_stream w3 d = active_stream (snd (block w1)) d)) /\
    (_initialized w3 = true /\ in_bad_fork w3 = false /\
     consistent b w3 /\
     active_device w3 = (if set_stream_selects_device b
                         then device_index S0
                         else active_device (snd (block w1)))).
Proof.
  intros Hw Hf H0 Hcur HS0 HD1 Hty Hblock.
  destruct (count_of_positive b _ H0) as [Hc Hv0].
  pose proof (valid_index_bounds b _ Hv0) as B0.
  assert (Hpos : 0 < count_of b) by lia.
  assert (Hsame : TorchDevice_eqb (stream_device S0) (stream_device S1)
                  = true) by (apply streams_on_same_device; assumption).
  assert (Hv1 : valid_index b (device_index S1) = true)
    by (rewrite HD1; exact Hv0).
  destruct (stream_guard_init b (Some S1) w Hw Hf Hpos)
    as (w0 & E0 & (I0 & F0 & K0) & (Dw0 & Sw0)).
  assert (R0 : resolves_to b Absent (device_index S0) w0).
  { rewrite <- Hcur, <- Dw0. apply resolves_absent. exact Hpos. }
  destruct (current_stream_resolved b w0 Absent (device_index S0)
              K0 F0 Hc Hv0 R0)
    as (wa & Ea & (Ia & Fa & Ka) & (Da & Sa) & (la & La)).
  rewrite Sw0, HS0 in Ea.
  destruct (set_stream_ready b wa S1)
    as (w1 & E1 & I1 & F1 & L1 & A1 & _ & D1); auto.
  assert (Hw1 : consistent b w1).
  { pose proof (tame_consistent _ _ _ (tame_set_stream b (Some S1) wa)) as H.
    rewrite E1 in H. apply H. exact Ka. }
  pose proof (Hblock w1) as [Bf _ Bk Bc].
  destruct (set_stream_ready b (snd (block w1)) S0)
    as (w3 & E3 & I3 & F3 & L3 & A3 & O3 & D3); auto.
  { rewrite Bk. exact F1. }
  assert (Hw3 : consistent b w3).
  { pose proof (tame_consistent _ _ _
                  (tame_set_stream b (Some S0) (snd (block w1)))) as H.
    rewrite E3 in H. apply H, Bc, Hw1. }
  exists w1, w3. split; [|split; [|split]].
  - split; [rewrite <- HD1; exact A1|]. split.
    + exists la. rewrite L1, La, HD1, <- app_assoc. reflexivity.
    + repeat split; try assumption; try apply Hw1.
      rewrite D1, HD1, Da, Dw0, Hcur.
      destruct (set_stream_selects_device b); reflexivity.
  - unfold with_stream, with_, stream. rewrite E0, Hcur.
    unfold StreamContext.__enter__.
    cbn [StreamContext.stream StreamContext.idx].
    destruct (device_index S0 =? -1) eqn:E; [apply Z.eqb_eq in E; lia|].
    unfold bind at 1. rewrite Ea.
    cbn [StreamContext.stream StreamContext.idx
         StreamContext.src_prev_stream StreamContext.dst_prev_stream].
    rewrite Hsame. cbn [negb]. unfold bind at 1, ret at 1.
    unfold bind at 1. rewrite E1. unfold ret at 1.
    destruct (block w1) as [r w2]. cbn [snd fst] in *.
    unfold StreamContext.__exit__, StreamContext.attr.
    cbn [StreamContext.stream StreamContext.idx
         StreamContext.src_prev_stream StreamContext.dst_prev_stream].
    rewrite E. unfold bind at 1, ret at 1. rewrite Hsame. cbn [negb].
    unfold bind at 1, ret at 1. unfold bind at 1. rewrite E3. unfold ret.
    destruct r; reflexivity.
  - repeat split; assumption.
  - repeat split; try assumption; apply Hw3.
Qed.

(** X13: when the target stream [S1] is bound to the active device, on which
    [S0] is selected, [with stream(S1)] exchanges no device: entering ends
    with the query of the current stream and the call that selects [S1], and
    leaves the active device as it was; the block runs with [S1] selected;
    leaving, by return or by an exception of the block, selects [S0] again
    in a single call and touches the stream of no other device.  The block
    may be any code built from the operations of the module. *)
Theorem stream_guard_same_device_round_trip {T} (b : Backend) (w : World)
    (S0 S1 : Stream) (D0 : Z) (block : M T) :
  consistent b w -> in_bad_fork w = false -> 0 <= D0 < count_of b ->
  active_device w = D0 -> active_stream w D0 = S0 ->
  device_index S0 = D0 -> device_index S1 = D0 ->
  device_type S1 = device_type S0 ->
  tame b block ->
  exists w1 w3,
    active_stream w1 D0 = S1 /\
    active_device w1 = D0 /\
    (exists l, native_log w1 = l ++
       [C_getCurrentStream D0;
        C_setStream (stream_id S1) D0 (device_type S1)]) /\
    with_stream b (Some S1) block w = (propagate (fst (block w1)), w3) /\
    active_stream w3 D0 = S0 /\
    native_log w3 = native_log (snd (block w1)) ++
      [C_setStream (stream_id S0) D0 (device_type S0)] /\
    (forall d, d <> D0 ->
               active_stream w3 d = active_stream (snd (block w1)) d).
Proof.
  intros Hw Hf H0 Hcur HS0 HD0 HD1 Hty Hblock.
  revert Hcur. subst D0. intros Hcur.
  destruct (stream_guard_same_device_run b w S0 S1 block)
    as (w1 & w3 & (A1 & L1 & _ & _ & _ & D1) & E & (A3 & L3 & O3) & _); auto.
  exists w1, w3. auto 10.
Qed.

Lemma stream_guard_same_device_round_trip_witness :
  exists w1 w3,
    active_stream w1 0 = mkStream 7 0 XPU /\
    active_device w1 = 0 /\
    (exists l, native_log w1 = l ++
       [C_getCurrentStream 0;
        C_setStream (stream_id (mkStream 7 0 XPU)) 0
                    (device_type (mkStream 7 0 XPU))]) /\
    with_stream two_devices (Some (mkStream 7 0 XPU))
      (synchronize two_devices (Index 9)) fresh
    = (propagate (fst (synchronize two_devices (Index 9) w1)), w3) /\
    active_stream w3 0 = mkStream 0 0 XPU /\
    native_log w3 = native_log (snd (synchronize two_devices (Index 9) w1)) ++
      [C_setStream (stream_id (mkStream 0 0 XPU)) 0
                   (device_type (mkStream 0 0 XPU))] /\
    (forall d, d <> 0 ->
               active_stream w3 d
               = active_stream (snd (synchronize two_devices (Index 9) w1))
                               d).
Proof.
  apply (stream_guard_same_device_round_trip two_devices fresh
           (mkStream 0 0 XPU) (mkStream 7 0 XPU) 0).
  - apply fresh_consistent; reflexivity.
  - reflexivity.
  - cbn; lia.
  - reflexivity.
  - reflexivity.
  - reflexivity.
  - reflexivity.
  - reflexivity.
  - apply (tame_run_op two_devices (op_synchronize (Index 9))).
Defined.

(** X16: inside [with stream(S1)], for a stream [S1] bound to the active
    device, [current_stream()] returns [S1], and after the statement it
    returns the stream [S0] that was selected before. *)
Theorem current_stream_inside_guard (b : Backend) (w : World)
    (S0 S1 : Stream) (D0 : Z) :
  consistent b w -> in_bad_fork w = false -> 0 <= D0 < count_of b ->
  active_device w = D0 -> active_stream w D0 = S0 ->
  device_index S0 = D0 -> device_index S1 = D0 ->
  device_type S1 = device_type S0 ->
  exists w3 w4,
    with_stream b (Some S1) (current_stream b Absent) w
    = (Ok (Some S1), w3) /\
    current_stream b Absent w3 = (Ok S0, w4).
Proof.
  intros Hw Hf H0 Hcur HS0 HD0 HD1 Hty.
  revert Hcur. subst D0. intros Hcur.
  destruct (count_of_positive b _ H0) as [Hc Hv0].
  assert (Hpos : 0 < count_of b) by lia.
  destruct (stream_guard_same_device_run b w S0 S1 (current_stream b Absent))
    as (w1 & w3 & (A1 & _ & I1 & F1 & Hw1 & D1) & E & (A3 & _) &
        (I3 & F3 & Hw3 & D3)); auto using tame_current_stream.
  assert (R1 : resolves_to b Absent (device_index S0) w1).
  { rewrite <- D1. apply resolves_absent. exact Hpos. }
  destruct (current_stream_resolved b w1 Absent (device_index S0)
              Hw1 F1 Hc Hv0 R1) as (w2 & E1 & _ & (D2 & _) & _).
  rewrite A1 in E1. rewrite E1 in E, D3. cbn [fst snd propagate] in E, D3.
  assert (Hd3 : active_device w3 = device_index S0).
  { rewrite D3. destruct (set_stream_selects_device b); [reflexivity|].
    rewrite D2. exact D1. }
  assert (R3 : resolves_to b Absent (device_index S0) w3).
  { rewrite <- Hd3. apply resolves_absent. exact Hpos. }
  destruct (current_stream_resolved b w3 Absent (device_index S0)
              Hw3 F3 Hc Hv0 R3) as (w4 & E4 & _).
  rewrite A3 in E4.
  exists w3, w4. split; [exact E|exact E4].
Qed.

Lemma current_stream_inside_guard_witness :
  exists w3 w4,
    with_stream two_devices (Some (mkStream 7 0 XPU))
      (current_stream two_devices Absent) fresh
    = (Ok (Some (mkStream 7 0 XPU)), w3) /\
    current_stream two_devices Absent w3 = (Ok (mkStream 0 0 XPU), w4).
Proof.
  apply (current_stream_inside_guard two_devices fresh (mkStream 0 0 XPU)
           (mkStream 7 0 XPU) 0).
  - apply fresh_consistent; reflexivity.
  - reflexivity.
  - cbn; lia.
  - reflexivity.
  - reflexivity.
  - reflexivity.
  - reflexivity.
  - reflexivity.
Defined.

(** ** Concurrent callers: what they find, and that they get through *)

Lemma returned_ok_mono (w w' : World) (pc : Pc) :
  (_initialized w = true -> _initialized w' = true) ->
  returned_ok w pc -> returned_ok w' pc.
Proof.
  intros Hm. destruct pc; cbn; auto. intros [H1 H2]. auto.
Qed.

Lemma step_returned_ok (b : Backend) (p q : Process) :
  has_xpu b = true -> in_bad_fork (world p) = false ->
  step b p q ->
  Forall (returned_ok (world p)) (threads p) ->
  Forall (returned_ok (world q)) (threads q).
Proof.
  intros Hc Hf Hs Hp.
  pose proof (step_flag b p q Hs) as Hm.
  destruct Hs as [w lk l1 pc l2 pc' lk' w' Ht|w lk l1 r l2|w lk l];
    cbn [world threads] in *.
  - apply Forall_app in Hp as [P1 P2]. inversion P2 as [|x l Px P2']; subst.
    apply Forall_app. split.
    + eapply Forall_impl; [|exact P1]. intros a. apply returned_ok_mono, Hm.
    + constructor.
      * rewrite thread_step_eq in Ht. rewrite Hf, Hc in Ht.
        destruct pc; try discriminate;
          repeat match type of Ht with
                 | (if ?c then _ else _) = _ => destruct c eqn:?
                 | Some (if ?c then _ else _, _, _) = _ => destruct c eqn:?
                 end;
          try discriminate; injection Ht as <- <- <-; cbn; auto;
          split; auto;
          match goal with
          | H : _ && _ = true |- _ => apply andb_prop in H as [H _]; exact H
          end.
      * eapply Forall_impl; [|exact P2']. intros a.
        apply returned_ok_mono, Hm.
  - apply Forall_app in Hp as [P1 P2]. inversion P2; subst.
    apply Forall_app. split; [assumption|]. constructor; [exact I|assumption].
  - apply Forall_app. split; [assumption|]. repeat constructor.
Qed.

(** X14: however the statements of any number of concurrent callers of
    [_lazy_init] interleave, in a process with the backend that is not in a
    bad fork every call that has returned has returned normally and found
    the flag set, and by then the native initialisation has run exactly once
    if the flag was unset at the start, and not at all if it was set. *)
Theorem concurrent_callers_find_initialized (b : Backend) (w0 : World)
    (n : nat) (p : Process) :
  has_xpu b = true -> in_bad_fork w0 = false ->
  steps b (start w0 n) p ->
  forall r, In (Returned r) (threads p) ->
    r = Ok tt /\ _initialized (world p) = true /\
    init_calls (world p)
    = (init_calls w0 + if _initialized w0 then 0 else 1)%nat.
Proof.
  intros Hc Hf Hs.
  assert (Hall : Forall (returned_ok (world p)) (threads p)).
  { remember (start w0 n) as p0 eqn:E0.
    induction Hs as [p|p q r' Hs IH Hstep].
    - subst p. unfold start. cbn [threads].
      apply Forall_forall. intros pc Hin. apply repeat_spec in Hin.
      subst pc. exact I.
    - subst p. specialize (IH eq_refl).
      apply (step_returned_ok b q r' Hc); auto.
      rewrite (inv_fork _ _ (steps_inv b w0 n q Hs)). exact Hf. }
  intros r Hin.
  pose proof (proj1 (Forall_forall _ _) Hall _ Hin) as [Hr Hi].
  destruct (steps_inv b w0 n p Hs) as [_ _ _ _ IC].
  repeat split; auto.
  rewrite IC, Hi. cbn. reflexivity.
Qed.

Lemma concurrent_callers_find_initialized_witness :
  let p := schedule two_devices [0; 1; 0; 0; 0; 0; 0; 0; 1]%nat
             (start fresh 2%nat) in
  In (Returned (Ok tt)) (threads p) /\
  (Ok tt = Ok tt /\ _initialized (world p) = true /\
   init_calls (world p)
   = (init_calls fresh + if _initialized fresh then 0 else 1)%nat).
Proof.
  assert (Hin : In (Returned (Ok tt))
                   (threads (schedule two_devices
                               [0; 1; 0; 0; 0; 0; 0; 0; 1]%nat
                               (start fresh 2%nat))))
    by (left; reflexivity).
  split; [exact Hin|].
  apply (concurrent_callers_find_initialized two_devices fresh 2%nat _
           eq_refl eq_refl (schedule_steps two_devices _ _) (Ok tt) Hin).
Defined.

Lemma holders_positive (l : list Pc) :
  holders l <> 0%nat ->
  exists l1 pc l2, l = l1 ++ pc :: l2 /\ holds_lock pc = true.
Proof.
  induction l as [|pc l IH]; intros H; [contradiction H; reflexivity|].
  rewrite holders_cons in H. destruct (holds_lock pc) eqn:Hp.
  - exists [], pc, l. split; [reflexivity|exact Hp].
  - destruct (IH H) as (l1 & pc' & l2 & E & Hp'). subst l.
    exists (pc :: l1), pc', l2. split; [reflexivity|exact Hp'].
Qed.

Lemma some_thread_running (l : list Pc) :
  forallb is_returned l = false ->
  exists l1 pc l2, l = l1 ++ pc :: l2 /\ is_returned pc = false.
Proof.
  induction l as [|pc l IH]; intros H; [discriminate H|].
  cbn in H. destruct (is_returned pc) eqn:Hp.
  - destruct (IH H) as (l1 & pc' & l2 & E & Hp'). subst l.
    exists (pc :: l1), pc', l2. split; [reflexivity|exact Hp'].
  - exists [], pc, l. split; [reflexivity|exact Hp].
Qed.

Lemma all_returned_idle (l : list Pc) :
  forallb is_returned l = true -> holders l = 0%nat.
Proof.
  induction l as [|pc l IH]; intros H; [reflexivity|].
  cbn in H. apply andb_prop in H as [Hp Hl].
  rewrite holders_cons, (IH Hl). destruct pc; (reflexivity || discriminate).
Qed.

(** X15: [_initialization_lock] is never left held: however the statements
    of the concurrent callers interleave, at most one of them is inside the
    [with] block, the lock is held exactly when one is, it is free whenever
    all calls have returned, and as long as some call has not returned there
    is a thread that can run its next statement. *)
Theorem lock_is_released (b : Backend) (w0 : World) (n : nat)
    (p : Process) :
  steps b (start w0 n) p ->
  (holders (threads p) <= 1)%nat /\
  (lock_held p = true <-> holders (threads p) = 1%nat) /\
  (forallb is_returned (threads p) = true -> lock_held p = false) /\
  (forallb is_returned (threads p) = false ->
   exists l1 pc l2 next,
     threads p = l1 ++ pc :: l2 /\
     thread_step b pc (lock_held p) (world p) = Some next).
Proof.
  intros Hs. destruct (steps_inv b w0 n p Hs) as [IL _ _ _ _].
  split; [|split; [|split]].
  - rewrite IL. destruct (lock_held p); lia.
  - rewrite IL. destruct (lock_held p); split; intros H;
      (reflexivity || discriminate).
  - intros H. rewrite (all_returned_idle _ H) in IL.
    destruct (lock_held p); [discriminate IL|reflexivity].
  - intros H. destruct (lock_held p) eqn:Hl.
    + destruct (holders_positive (threads p)) as (l1 & pc & l2 & E & Hp).
      { rewrite IL. discriminate. }
      exists l1, pc, l2. rewrite thread_step_eq.
      destruct pc; try discriminate Hp;
        repeat match goal with
               | |- context [if ?c then _ else _] => destruct c
               end;
        eexists; split; (exact E || reflexivity).
    + destruct (some_thread_running _ H) as (l1 & pc & l2 & E & Hp).
      assert (Hh : holds_lock pc = false).
      { rewrite E, holders_app, holders_cons in IL.
        destruct (holds_lock pc); [lia|reflexivity]. }
      exists l1, pc, l2. rewrite thread_step_eq.
      destruct pc; try discriminate Hp; try discriminate Hh;
        eexists; split; (exact E || reflexivity).
Qed.

Lemma lock_is_released_witness :
  let p := schedule two_devices [0; 1; 0; 1; 0]%nat (start fresh 2%nat) in
  (holders (threads p) <= 1)%nat /\
  (lock_held p = true <-> holders (threads p) = 1%nat) /\
  (forallb is_returned (threads p) = true -> lock_held p = false) /\
  (forallb is_returned (threads p) = false ->
   exists l1 pc l2 next,
     threads p = l1 ++ pc :: l2 /\
     thread_step two_devices pc (lock_held p) (world p) = Some next).
Proof.
  apply (lock_is_released two_devices fresh 2%nat).
  apply schedule_steps.
Defined.

(** ** Guards inside guards, and initialising on the way to an error *)

(** X17: device guards nest: with the devices [A], [B] and [C] in
    [0, device_count()) and [B] active, outside a bad fork,
    [current_device()] returns [C] inside the inner of
    [with device(A): with device(C): ...], [A] between the end of the inner
    statement and the end of the outer one, and [B] after both. *)
Theorem device_guards_nest (b : Backend) (w : World) (A B C : Z) :
  consistent b w -> in_bad_fork w = false ->
  0 <= A < count_of b -> 0 <= B < count_of b -> 0 <= C < count_of b ->
  active_device w = B ->
  exists w3 w4,
    with_device b (Index A)
      (inner <- with_device b (Index C) (current_device b) ;;
       after <- current_device b ;;
       ret (inner, after)) w
    = (Ok (Some (Some C, A)), w3) /\
    current_device b w3 = (Ok B, w4).
Proof.
  intros Hw Hf HA HB HC Hcur.
  destruct (count_of_positive b A HA) as [Hc HvA].
  destruct (count_of_positive b B HB) as [_ HvB].
  destruct (count_of_positive b C HC) as [_ HvC].
  rewrite <- Hcur in HvB.
  set (w1 := set_active_device A (log_call (C_exchangeDevice A) w)).
  set (w1c := set_active_device C (log_call (C_exchangeDevice C) w1)).
  destruct (current_device_ok b w1c Hc Hf) as (w2 & E2 & F2 & _).
  set (w2' := set_active_device A (log_call (C_maybeExchangeDevice A) w2)).
  destruct (current_device_ok b w2' Hc F2) as (w2a & E2a & F2a & _).
  assert (Hblock :
    (inner <- with_device b (Index C) (current_device b) ;;
     after <- current_device b ;;
     ret (inner, after)) w1 = (Ok (Some C, A), w2a)).
  { unfold bind at 1.
    rewrite (with_device_valid b w1 (Index C) C _ Hc HvC HvA eq_refl).
    fold w1c. rewrite E2. cbn [fst snd propagate].
    change (active_device w1) with A. fold w2'.
    unfold bind at 1. rewrite E2a. reflexivity. }
  rewrite (with_device_valid b w (Index A) A _ Hc HvA HvB eq_refl).
  fold w1. rewrite Hblock. cbn [fst snd propagate].
  set (w3 := set_active_device (active_device w) _).
  destruct (current_device_ok b w3 Hc F2a) as (w4 & E4 & _).
  exists w3, w4. split; [reflexivity|].
  rewrite E4. cbn. rewrite Hcur. reflexivity.
Qed.

Lemma device_guards_nest_witness :
  exists w3 w4,
    with_device two_devices (Index 1)
      (inner <- with_device two_devices (Index 0)
                  (current_device two_devices) ;;
       after <- current_device two_devices ;;
       ret (inner, after)) fresh
    = (Ok (Some (Some 0, 1)), w3) /\
    current_device two_devices w3 = (Ok 0, w4).
Proof.
  apply (device_guards_nest two_devices fresh 1 0 0).
  - apply fresh_consistent; reflexivity.
  - reflexivity.
  - cbn; lia.
  - cbn; lia.
  - cbn; lia.
  - reflexivity.
Defined.

Lemma run_op_after_lazy_init (b : Backend) (op : Op) (w wi : World) :
  triggers_lazy_init op = true ->
  _lazy_init b w = (Ok tt, wi) ->
  run_op b op w = run_op b op wi.
Proof.
  intros Ht E.
  pose proof (proj2 (lazy_init_absorb b w wi ret E)) as Ei.
  destruct op as [ | | | | | |[s|]| | | | | | ]; try discriminate Ht;
    unfold run_op, ignore, init, set_device, get_device_name,
      get_device_capability, get_device_properties, current_device,
      set_stream, current_stream, synchronize;
    unfold bind; rewrite E, Ei; reflexivity.
Qed.

(** X18: the operations initialise before they look at their argument: in a
    process with the backend that is not in a bad fork, every operation that
    starts with the lazy initialisation leaves the backend initialised,
    also when it then raises, as [get_device_properties] does for an index
    out of range, and also when it then has nothing to do, as [set_device]
    for a negative index. *)
Theorem operations_initialize_first (b : Backend) (op : Op) (w : World) :
  has_xpu b = true -> in_bad_fork w = false ->
  triggers_lazy_init op = true ->
  let w' := snd (run_op b op w) in
  _initialized w' = true /\ is_initialized w' = (Ok true, w').
Proof.
  intros Hc Hf Ht w'.
  destruct (lazy_init_ok b w Hf Hc) as (wi & E & Ii & Fi & _).
  assert (Hw' : w' = snd (run_op b op wi)).
  { unfold w'. rewrite (run_op_after_lazy_init b op w wi Ht E).
    reflexivity. }
  destruct (tame_run_op b op wi) as [F _ K _].
  rewrite <- Hw' in F, K.
  rewrite is_initialized_eq, (F Ii), K, Fi. auto.
Qed.

Lemma operations_initialize_first_witness :
  let w' := snd (run_op two_devices (op_get_device_properties (Index 5))
                   fresh) in
  _initialized w' = true /\ is_initialized w' = (Ok true, w').
Proof.
  apply (operations_initialize_first two_devices
           (op_get_device_properties (Index 5)) fresh); reflexivity.
Defined.
